(** * Tallysheet generator: a shallow embedding of [generateWord.py]

    The development follows the layout of the Python module: first the
    fragment of the Python runtime the module relies on ([Py]), then the
    part of the document library it drives ([Docx]), then the module's
    own functions under their source names, and finally the theorems. *)

From Stdlib Require Import ZArith NArith Lia Ascii.
From Stdlib.Strings Require Import Byte.
From stdpp Require Import base option list gmap strings.

Set Default Proof Using "Type".
#[local] Set Warnings "-register-all".

(* ===================================================================== *)
(** ** The Python runtime, as far as the module uses it                  *)
(* ===================================================================== *)

(** A Python [str] is a sequence of Unicode code points. *)
Definition pystr := list N.

(** ASCII literals of the source text. *)
Fixpoint lit (s : string) : pystr :=
  match s with
  | EmptyString => []
  | String a r => N_of_ascii a :: lit r
  end.

(** Exceptions (subclasses of Python's [Exception]) that occur in the model. *)
Inductive exn :=
  | ValueError
  | NameError (name : pystr)
  | OSError
  | LibraryError (cls : pystr).

Inductive result (A : Type) :=
  | Ok (a : A)
  | Raise (e : exn).
Arguments Ok {A} a.
Arguments Raise {A} e.

Definition is_Ok {A} (r : result A) : bool :=
  match r with Ok _ => true | Raise _ => false end.

Module Py.

(** [str.isspace] on one code point: the Unicode white space characters
    (bidirectional type WS, B or S, or category Zs). *)
Definition isspace (c : N) : bool :=
  ((0x09 <=? c) && (c <=? 0x0D) || (0x1C <=? c) && (c <=? 0x20)
   || (c =? 0x85) || (c =? 0xA0) || (c =? 0x1680)
   || (0x2000 <=? c) && (c <=? 0x200A)
   || (c =? 0x2028) || (c =? 0x2029) || (c =? 0x202F)
   || (c =? 0x205F) || (c =? 0x3000))%N.

Fixpoint lstrip_with (sp : N -> bool) (s : pystr) : pystr :=
  match s with
  | c :: r => if sp c then lstrip_with sp r else s
  | [] => []
  end.

Definition strip_with (sp : N -> bool) (s : pystr) : pystr :=
  rev (lstrip_with sp (rev (lstrip_with sp s))).

(** [s.strip()] *)
Definition strip : pystr -> pystr := strip_with isspace.

(** [c * n] for a one-character string [c]: empty when [n <= 0]. *)
Definition repeat_char (c : N) (n : Z) : pystr := replicate (Z.to_nat n) c.

(** *** Numeric literals accepted by [int()] and [float()]

    Both builtins first map every Unicode decimal digit (category Nd) to
    its ASCII counterpart. The table lists the code point of the digit
    zero of each Nd block (Unicode 14); the nine code points after it are
    the digits one to nine. *)
Definition nd_zeros : list N :=
  [48; 1632; 1776; 1984; 2406; 2534; 2662; 2790; 2918; 3046; 3174; 3302;
   3430; 3558; 3664; 3792; 3872; 4160; 4240; 6112; 6160; 6470; 6608; 6784;
   6800; 6992; 7088; 7232; 7248; 42528; 43216; 43264; 43472; 43504; 43600;
   44016; 65296; 66720; 68912; 69734; 69872; 69942; 70096; 70384; 70736;
   70864; 71248; 71360; 71472; 71904; 72016; 72784; 73040; 73120; 92768;
   92864; 93008; 120782; 120792; 120802; 120812; 120822; 123200; 123632;
   125264; 130032]%N.

Definition decimal (c : N) : option N :=
  match List.find (fun z => (z <=? c) && (c <? z + 10))%N nd_zeros with
  | Some z => Some (c - z)%N
  | None => None
  end.

(** White space skipped around a numeric literal: as [isspace], except
    that the ASCII separators 0x1C..0x1F are not skipped. *)
Definition isspace_num (c : N) : bool :=
  isspace c && negb ((0x1C <=? c) && (c <=? 0x1F))%N.

Definition underscore : N := 95.

(** The rest of a [digitpart] after its first digit:
    [(["_"] digit)*], longest match. *)
Fixpoint digits_tail (s : pystr) : list N * pystr :=
  match s with
  | [] => ([], [])
  | c :: r =>
      match decimal c with
      | Some d => let '(ds, rest) := digits_tail r in (d :: ds, rest)
      | None =>
          if (c =? underscore)%N then
            match r with
            | c2 :: r2 =>
                match decimal c2 with
                | Some d => let '(ds, rest) := digits_tail r2 in (d :: ds, rest)
                | None => ([], s)
                end
            | [] => ([], s)
            end
          else ([], s)
      end
  end.

(** [digitpart ::= digit (["_"] digit)*] *)
Definition digitpart (s : pystr) : option (list N * pystr) :=
  match s with
  | c :: r =>
      match decimal c with
      | Some d => let '(ds, rest) := digits_tail r in Some (d :: ds, rest)
      | None => None
      end
  | [] => None
  end.

(** An optional sign; [true] stands for minus. *)
Definition sign (s : pystr) : bool * pystr :=
  match s with
  | c :: r =>
      if (c =? 43)%N then (false, r)
      else if (c =? 45)%N then (true, r)
      else (false, s)
  | [] => (false, [])
  end.

Definition digits_value (ds : list N) : N :=
  fold_left (fun acc d => 10 * acc + d)%N ds 0%N.

(** Default of [sys.int_info.default_max_str_digits]. *)
Definition int_max_str_digits : nat := 4300.

(** [int(s)] for a string argument, base 10. *)
Definition int (s : pystr) : result Z :=
  let '(neg, body) := sign (strip_with isspace_num s) in
  match digitpart body with
  | Some (ds, []) =>
      if (int_max_str_digits <? length ds)%nat then Raise ValueError
      else
        let v := Z.of_N (digits_value ds) in
        Ok (if neg then (- v)%Z else v)
  | _ => Raise ValueError
  end.

(** What [float(s)] denotes before rounding to binary64: the validator
    discards the value, so the rounding itself is not modelled. *)
Inductive float_literal :=
  | FNan
  | FInf (neg : bool)
  | FDec (neg : bool) (mantissa : N) (exp10 : Z).

(** ASCII lower-casing, for the case-insensitive [inf] and [nan]. *)
Definition ascii_lower (c : N) : N :=
  if ((65 <=? c) && (c <=? 90))%N then (c + 32)%N else c.

(** [[digitpart] "." digitpart | digitpart ["."]]: integer digits,
    fraction digits and what is left. *)
Definition number (s : pystr) : option (list N * list N * pystr) :=
  match digitpart s with
  | Some (ip, r1) =>
      match r1 with
      | c :: r2 =>
          if (c =? 46)%N then
            match digitpart r2 with
            | Some (fp, r3) => Some (ip, fp, r3)
            | None => Some (ip, [], r2)
            end
          else Some (ip, [], r1)
      | [] => Some (ip, [], [])
      end
  | None =>
      match s with
      | c :: r2 =>
          if (c =? 46)%N then
            match digitpart r2 with
            | Some (fp, r3) => Some ([], fp, r3)
            | None => None
            end
          else None
      | [] => None
      end
  end.

(** [exponent ::= ("e" | "E") [sign] digitpart], when one starts here. *)
Definition exponent (s : pystr) : option (Z * pystr) :=
  match s with
  | c :: r =>
      if (ascii_lower c =? 101)%N then
        let '(neg, body) := sign r in
        match digitpart body with
        | Some (ds, rest) =>
            let v := Z.of_N (digits_value ds) in
            Some (if neg then (- v)%Z else v, rest)
        | None => None
        end
      else None
  | [] => None
  end.

(** [float(s)] for a string argument. *)
Definition float (s : pystr) : result float_literal :=
  let '(neg, body) := sign (strip_with isspace_num s) in
  let low := map ascii_lower body in
  if bool_decide (low = lit "inf") || bool_decide (low = lit "infinity")
  then Ok (FInf neg)
  else if bool_decide (low = lit "nan") then Ok FNan
  else
    match number body with
    | Some (ip, fp, rest) =>
        let m := digits_value (ip ++ fp) in
        let shift := Z.of_nat (length fp) in
        match rest with
        | [] => Ok (FDec neg m (- shift))
        | _ :: _ =>
            match exponent rest with
            | Some (e, []) => Ok (FDec neg m (e - shift))
            | _ => Raise ValueError
            end
        end
    | None => Raise ValueError
    end.

End Py.

(** Values that reach the module's helpers: [None], a [str], an uploaded
    file, or some other object (the framework's task queue), the last two
    known to the helpers only through the text [str()] gives for them. *)
Record upload := Upload {
  up_repr : pystr;
  up_read : result (list byte)
}.

Inductive value :=
  | VNone
  | VStr (s : pystr)
  | VUpload (u : upload)
  | VObj (repr : pystr).

(** [str(v)] *)
Definition str (v : value) : pystr :=
  match v with
  | VNone => lit "None"
  | VStr s => s
  | VUpload u => up_repr u
  | VObj r => r
  end.

(** [d.get(k)] on a dict of values: [None] when the key is missing. *)
Definition dict_get (d : gmap pystr value) (k : pystr) : value :=
  default VNone (d !! k).

(** [value is None or str(value).strip() == ""] *)
Definition is_unset (v : value) : bool :=
  match v with
  | VNone => true
  | _ => bool_decide (Py.strip (str v) = [])
  end.

(* ===================================================================== *)
(** ** Helpers                                                           *)
(* ===================================================================== *)

Definition format_input_text (value : value) (placeholder_length : Z) : pystr :=
  if is_unset value then Py.repeat_char Py.underscore placeholder_length
  else str value.

(** The default of [placeholder_length]. *)
Definition default_placeholder_length : Z := 6.

Definition format_checkbox_as_X (value : value) : pystr :=
  if is_unset value then lit "_" else lit "X".

(* ===================================================================== *)
(** ** Validation helper                                                 *)
(* ===================================================================== *)

(** One entry [{"field": name, "msg": "..."}] of the returned list. *)
Record error_entry := ErrorEntry {
  e_field : pystr;
  e_msg : pystr
}.

(** The body of the [try]: the parsed number is discarded. *)
Definition parse_as (is_int : bool) (s : pystr) : result unit :=
  if is_int then
    match Py.int s with Ok _ => Ok tt | Raise e => Raise e end
  else
    match Py.float s with Ok _ => Ok tt | Raise e => Raise e end.

(** [f"Expected {'integer' if is_int else 'number'} but got '{s}'"] *)
Definition expected_msg (is_int : bool) (s : pystr) : pystr :=
  lit "Expected " ++ (if is_int then lit "integer" else lit "number")
  ++ lit " but got '" ++ s ++ lit "'".

(** The [for] loop of [validate_numeric_fields], [errors] being the list
    built so far. *)
Fixpoint validate_loop (form : gmap pystr value) (rules : list (pystr * bool))
    (errors : list error_entry) : result (list error_entry) :=
  match rules with
  | [] => Ok errors
  | (field, is_int) :: rest =>
      let val := dict_get form field in
      if is_unset val then validate_loop form rest errors
      else
        let s := Py.strip (str val) in
        match parse_as is_int s with
        | Ok _ => validate_loop form rest errors
        | Raise _ =>
            validate_loop form rest
              (errors ++ [ErrorEntry field (expected_msg is_int s)])
        end
  end.

Definition validate_numeric_fields (form : gmap pystr value)
    (rules : list (pystr * bool)) : result (list error_entry) :=
  validate_loop form rules [].


(* ===================================================================== *)
(** ** The document library, as far as the module drives it              *)
(* ===================================================================== *)

Module Docx.

Inductive alignment := LEFT | CENTER.   (* WD_ALIGN_PARAGRAPH *)
Inductive vertical := TOP.              (* WD_ALIGN_VERTICAL *)

(** Lengths are held in English Metric Units, as the library does. *)
Definition Inches_1 : Z := 914400.
Definition Inches_1_25 : Z := 1143000.
Definition Inches_2_8 : Z := 2560320.
Definition Inches_3_0 : Z := 2743200.
Definition Inches_4_5 : Z := 4114800.

(** What [Run.add_picture] is given: a byte stream or a path. *)
Inductive image_source :=
  | FromStream (content : list byte)
  | FromPath (path : pystr).

Record picture := Picture {
  pic_source : image_source;
  pic_width : Z
  }.

Record run := Run {
  r_text : pystr;
  r_pictures : list picture;
  r_font_name : option pystr;
  r_font_size : option Z;          (* in points *)
  r_bold : option bool;
  r_italic : option bool
  }.

Record paragraph := Paragraph {
  p_alignment : option alignment;
  p_runs : list run
  }.

(** A table cell always holds at least one paragraph. *)
Record cell := Cell {
  c_first : paragraph;
  c_rest : list paragraph;
  c_vertical : option vertical;
  c_span : nat
  }.

Record table := Table {
  t_autofit : bool;
  t_widths : list (option Z);      (* one per grid column *)
  t_rows : list (list cell)
  }.

Inductive block :=
  | BParagraph (p : paragraph)
  | BTable (t : table).

Record margins := Margins {
  m_top : Z; m_bottom : Z; m_left : Z; m_right : Z
  }.

Record document := Document {
  d_margins : option margins;      (* [None]: those of the template *)
  d_body : list block
  }.

(** [p.add_run(text)] before any styling. *)
Definition new_run (text : pystr) : run := Run text [] None None None None.

Definition empty_paragraph : paragraph := Paragraph None [].

(** A cell as [add_table] and [add_row] create it. *)
Definition new_cell : cell := Cell empty_paragraph [] None 1.

(** [cell.paragraphs] *)
Definition paragraphs (c : cell) : list paragraph := c_first c :: c_rest c.

(** [p.clear()]: the content goes, the paragraph formatting stays. *)
Definition clear (p : paragraph) : paragraph := Paragraph (p_alignment p) [].

Definition set_alignment (a : alignment) (p : paragraph) : paragraph :=
  Paragraph (Some a) (p_runs p).

(** Appending a run to a paragraph. *)
Definition add_run (p : paragraph) (r : run) : paragraph :=
  Paragraph (p_alignment p) (p_runs p ++ [r]).

(** The picture lands in the run [add_picture] was called on. *)
Definition with_picture (r : run) (pic : picture) : run :=
  Run (r_text r) (r_pictures r ++ [pic]) (r_font_name r) (r_font_size r)
      (r_bold r) (r_italic r).

Definition set_first (c : cell) (p : paragraph) : cell :=
  Cell p (c_rest c) (c_vertical c) (c_span c).

Definition set_vertical (v : vertical) (c : cell) : cell :=
  Cell (c_first c) (c_rest c) (Some v) (c_span c).

(** [cell.add_paragraph()] followed by filling the new paragraph. *)
Definition add_paragraph_to_cell (c : cell) (p : paragraph) : cell :=
  Cell (c_first c) (c_rest c ++ [p]) (c_vertical c) (c_span c).

Definition is_empty_cell (c : cell) : bool :=
  match c_rest c, p_runs (c_first c) with
  | [], [] => true
  | _, _ => false
  end.

(** [a.merge(b)] for two neighbours of one row: one cell spanning both,
    with the content of [b] moved behind that of [a] unless [b] is empty. *)
Definition merge (a b : cell) : cell :=
  Cell (c_first a)
       (if is_empty_cell b then c_rest a else c_rest a ++ paragraphs b)
       (c_vertical a) (c_span a + c_span b).

(** [doc.add_table(rows, cols)] before it is filled. *)
Definition new_table (rows cols : nat) : table :=
  Table true (replicate cols None) (replicate rows (replicate cols new_cell)).

(** [table.add_row()]: one new cell per grid column. *)
Definition new_row (t : table) : list cell :=
  replicate (length (t_widths t)) new_cell.

Definition set_autofit (b : bool) (t : table) : table :=
  Table b (t_widths t) (t_rows t).

(** [table.columns[i].width = w] *)
Definition set_column_width (i : nat) (w : Z) (t : table) : table :=
  Table (t_autofit t) (<[i := Some w]> (t_widths t)) (t_rows t).

Definition set_rows (rows : list (list cell)) (t : table) : table :=
  Table (t_autofit t) (t_widths t) rows.

Definition append_row (row : list cell) (t : table) : table :=
  set_rows (t_rows t ++ [row]) t.

Definition append_block (b : block) (d : document) : document :=
  Document (d_margins d) (d_body d ++ [b]).

(** The text carried by a paragraph, by all runs of a cell, and
    [cell.text], which joins the paragraphs with a line feed. *)
Definition paragraph_text (p : paragraph) : pystr :=
  concat (map r_text (p_runs p)).

Definition cell_runs (c : cell) : list run :=
  concat (map p_runs (paragraphs c)).

Definition cell_pictures (c : cell) : list picture :=
  concat (map r_pictures (cell_runs c)).

Fixpoint join_lines (l : list pystr) : pystr :=
  match l with
  | [] => []
  | [s] => s
  | s :: rest => s ++ 10%N :: join_lines rest
  end.

Definition cell_text (c : cell) : pystr :=
  join_lines (map paragraph_text (paragraphs c)).

End Docx.

(* ===================================================================== *)
(** ** Effects                                                           *)
(* ===================================================================== *)

(** What a request does to the outside, in the order it does it. *)
Inductive event :=
  | EvAddPicture (src : Docx.image_source)        (* [Run.add_picture] *)
  | EvDocument                                    (* [Document()] *)
  | EvRead (u : upload)                           (* [await upload.read()] *)
  | EvTempFile (path : pystr)                     (* [NamedTemporaryFile] *)
  | EvSave (path : pystr) (doc : Docx.document)   (* [doc.save(path)] *)
  | EvAddTask (path : pystr).                     (* [add_task(_cleanup, path)] *)

(** Computations that log events and may raise; the log survives a raise. *)
Definition M (A : Type) : Type := list event -> result A * list event.

Definition ret {A} (a : A) : M A := fun tr => (Ok a, tr).

Definition bind {A B} (m : M A) (k : A -> M B) : M B :=
  fun tr =>
    match m tr with
    | (Ok a, tr') => k a tr'
    | (Raise e, tr') => (Raise e, tr')
    end.

Definition raise {A} (e : exn) : M A := fun tr => (Raise e, tr).

Definition emit (ev : event) : M unit := fun tr => (Ok tt, tr ++ [ev]).

(** [try: m  except Exception: handler] *)
Definition try_except {A} (m : M A) (handler : exn -> M A) : M A :=
  fun tr =>
    match m tr with
    | (Ok a, tr') => (Ok a, tr')
    | (Raise e, tr') => handler e tr'
    end.

Definition lift {A} (r : result A) : M A := fun tr => (r, tr).

#[global] Instance M_ret : MRet M := @ret.
#[global] Instance M_bind : MBind M := fun A B k m => bind m k.

(** Everything outside the program that a request depends on. *)
Record world := World {
  w_add_picture : Docx.image_source -> result unit;   (* decode and embed *)
  w_tempfile : result pystr;       (* the fresh name, without its suffix *)
  w_save : pystr -> result unit;
  w_uuid4 : N
}.

(** A [for] loop whose body updates a state and may log or raise. *)
Fixpoint for_each {A S} (l : list A) (body : S -> A -> M S) (s : S) : M S :=
  match l with
  | [] => mret s
  | a :: rest => s' ← body s a; for_each rest body s'
  end.

(* ===================================================================== *)
(** ** Styling and the image inserter                                    *)
(* ===================================================================== *)

Import Docx.

#[global] Instance cell_inhabited : Inhabited cell := populate new_cell.

Definition Cambria : pystr := lit "Cambria".

Definition set_run_style (run : run) (name : pystr) (size_pt : Z)
    (bold italic : bool) : Docx.run :=
  Run (r_text run) (r_pictures run) (Some name) (Some size_pt)
      (Some bold) (Some italic).

(** The argument [image_bytes_or_path : Optional[Union[bytes, str]]]. *)
Inductive image_arg :=
  | ImgBytes (content : list byte)
  | ImgPath (path : pystr).

(** Python truth value of such an argument. *)
Definition truthy (x : option image_arg) : bool :=
  match x with
  | None => false
  | Some (ImgBytes b) => negb (bool_decide (b = []))
  | Some (ImgPath p) => negb (bool_decide (p = []))
  end.

(** [run.add_picture(source, width=...)]: the library decodes the image
    and embeds it, or raises. *)
Definition add_picture (w : world) (src : image_source) (width : Z)
    : M picture :=
  emit (EvAddPicture src);;
  lift (w_add_picture w src);;
  mret (Picture src width).

(** [BytesIO(x)] for bytes, [str(x)] for a path. *)
Definition picture_source (x : image_arg) : image_source :=
  match x with
  | ImgBytes b => FromStream b
  | ImgPath p => FromPath p
  end.

(** [max_width_inches] is held as the length [Inches(max_width_inches)]. *)
Definition _insert_image_in_cell (w : world) (cell : cell)
    (image_bytes_or_path : option image_arg) (max_width_inches : Z)
    : M Docx.cell :=
  (* for p in cell.paragraphs: p.clear() *)
  let cell := Cell (clear (c_first cell)) (map clear (c_rest cell))
                   (c_vertical cell) (c_span cell) in
  let p := set_alignment CENTER (c_first cell) in
  match image_bytes_or_path with
  | Some x =>
      if truthy image_bytes_or_path then
        let p1 := add_run p (new_run []) in             (* p.add_run() *)
        try_except
          (pic ← add_picture w (picture_source x) max_width_inches;
           mret (set_first cell (add_run p (with_picture (new_run []) pic))))
          (fun _ =>
             let run := new_run (lit "(error inserting image)") in
             mret (set_first cell
                     (add_run p1 (set_run_style run Cambria 9 false true))))
      else
        let run := new_run (lit "(no image)") in
        mret (set_first cell (add_run p (set_run_style run Cambria 10 false true)))
  | None =>
      let run := new_run (lit "(no image)") in
      mret (set_first cell (add_run p (set_run_style run Cambria 10 false true)))
  end.

(* ===================================================================== *)
(** ** Photo builders                                                    *)
(* ===================================================================== *)

(** [images.get(key)] on [Dict[str, Optional[Union[bytes, str]]]]. *)
Definition images_get (images : gmap pystr (option image_arg)) (key : pystr)
    : option image_arg :=
  match images !! key with
  | Some x => x
  | None => None
  end.

Definition default_max_image_width : Z := Inches_2_8.

(** A paragraph made of one styled run. *)
Definition styled (a : alignment) (text : pystr) (size_pt : Z)
    (bold italic : bool) (p : paragraph) : paragraph :=
  add_run (set_alignment a p)
          (set_run_style (new_run text) Cambria size_pt bold italic).

(** A two-column table with both columns 4.5 inches wide. *)
Definition two_column_table (rows : nat) : table :=
  set_column_width 1 Inches_4_5
    (set_column_width 0 Inches_4_5 (set_autofit false (new_table rows 2))).

(** [row = table.add_row()], its two cells merged, the item title in it. *)
Definition title_row (t : table) (title : pystr) : list Docx.cell :=
  let row := new_row t in
  let cell := merge (row !!! 0%nat) (row !!! 1%nat) in
  [set_first cell (styled LEFT title 11 true false (c_first cell))].

(** The inserter applied to the first two cells of a row, left first. *)
Definition insert_pair (w : world) (row : list Docx.cell)
    (left right : option image_arg) (max_w : Z) : M (list Docx.cell) :=
  l ← _insert_image_in_cell w (row !!! 0%nat) left max_w;
  r ← _insert_image_in_cell w (row !!! 1%nat) right max_w;
  mret (<[1%nat := r]> (<[0%nat := l]> row)).

(** [img_row = table.add_row()], both cells top-aligned, then the images. *)
Definition image_row (w : world) (t : table)
    (left right : option image_arg) (max_w : Z) : M (list Docx.cell) :=
  let img_row := new_row t in
  let img_row := <[1%nat := set_vertical TOP (img_row !!! 1%nat)]>
                   (<[0%nat := set_vertical TOP (img_row !!! 0%nat)]> img_row) in
  insert_pair w img_row left right max_w.

(** Items 1 to 3: a title row and an image row. *)
Definition photo_item (w : world) (images : gmap pystr (option image_arg))
    (max_w : Z) (title : string) (key1 key2 : string) (t : table) : M table :=
  let t := append_row (title_row t (lit title)) t in
  row ← image_row w t (images_get images (lit key1))
                      (images_get images (lit key2)) max_w;
  mret (append_row row t).

(** The table is appended to the document when it is created and filled
    afterwards; nothing in between can raise, so the model appends the
    filled table. *)
Definition add_foto_lapangan_section (w : world) (doc : document)
    (images : gmap pystr (option image_arg)) (max_image_width_inches : Z)
    : M document :=
  let table := two_column_table 1 in
  (* Header merged *)
  let row0 := t_rows table !!! 0%nat in
  let hdr := merge (row0 !!! 0%nat) (row0 !!! 1%nat) in
  let p := styled CENTER (lit "B." ++ [9%N] ++ lit "FOTO  LAPANGAN")
                  12 true false (c_first hdr) in
  let p_note :=
    styled CENTER
      (lit "Seluruh hasil foto yang diambil harus jelas dan tidak membelakangi matahari")
      9 false true empty_paragraph in
  let hdr := add_paragraph_to_cell (set_first hdr p) p_note in
  let table := set_rows [[hdr]] table in
  table ← photo_item w images max_image_width_inches
            "1.  Air tanah, genangan atau banjir"
            "foto_air_tanah_genangan_1" "foto_air_tanah_genangan_2" table;
  table ← photo_item w images max_image_width_inches
            "2.  Tutupan lahan, penggunaan lahan dan kondisinya"
            "foto_tutupan_lahan_1" "foto_tutupan_lahan_2" table;
  table ← photo_item w images max_image_width_inches
            "3.  Keberadaan flora dan fauna yang dilindungi"
            "foto_flora_fauna_1" "foto_flora_fauna_2" table;
  (* Item 4 (drainase) *)
  let table :=
    append_row (title_row table (lit "4.  Kondisi drainase alami dan drainase buatan"))
               table in
  (* subheader row *)
  let sub_row := new_row table in
  let sub_row :=
    <[1%nat := set_first (sub_row !!! 1%nat)
                 (styled CENTER (lit "Drainase buatan") 11 true false
                         (c_first (sub_row !!! 1%nat)))]>
      (<[0%nat := set_first (sub_row !!! 0%nat)
                    (styled CENTER (lit "Drainase alami") 11 true false
                            (c_first (sub_row !!! 0%nat)))]> sub_row) in
  let table := append_row sub_row table in
  row ← image_row w table (images_get images (lit "foto_drainase_alami"))
                  (images_get images (lit "foto_drainase_buatan"))
                  max_image_width_inches;
  mret (append_block (BTable (append_row row table)) doc).

(** [doc.add_paragraph()] with one bold run: the title of an item. *)
Definition item_title (title : string) (doc : document) : document :=
  append_block (BParagraph (styled LEFT (lit title) 11 true false empty_paragraph))
               doc.

(** A centred bold label in the first paragraph of a cell. *)
Definition label_cell (lbl : pystr) (c : Docx.cell) : Docx.cell :=
  set_first c (styled CENTER lbl 11 true false (c_first c)).

(** Items 6, 7, 9, 10 and 11: a title, a one-row table of two images and
    an empty paragraph. *)
Definition two_image_item (w : world) (images : gmap pystr (option image_arg))
    (max_w : Z) (title : string) (key1 key2 : string) (doc : document)
    : M document :=
  let doc := item_title title doc in
  let tbl := two_column_table 1 in
  row ← insert_pair w (t_rows tbl !!! 0%nat)
          (images_get images (lit key1)) (images_get images (lit key2)) max_w;
  let doc := append_block (BTable (set_rows [row] tbl)) doc in
  mret (append_block (BParagraph empty_paragraph) doc).

(** [[f"foto_tambahan_{i}" for i in range(1, 9)]] *)
Definition tambahan_keys : list pystr :=
  map (fun i => lit "foto_tambahan_" ++ [N.of_nat (48 + i)]) (seq 1 8).

(** [[l[i:i+2] for i in range(0, len(l), 2)]] *)
Fixpoint pair_iter {A} (l : list A) : list (list A) :=
  match l with
  | a :: b :: rest => [a; b] :: pair_iter rest
  | [a] => [[a]]
  | [] => []
  end.

(** The body of the loop over the pairs of additional photos. *)
Definition tambahan_pair (w : world) (images : gmap pystr (option image_arg))
    (max_w : Z) (doc : document) (pair : list pystr) : M document :=
  let tbl := two_column_table 1 in
  let row := t_rows tbl !!! 0%nat in
  let left_key := pair !!! 0%nat in
  let right_key := if (1 <? length pair)%nat then Some (pair !!! 1%nat) else None in
  l ← _insert_image_in_cell w (row !!! 0%nat) (images_get images left_key) max_w;
  r ← match right_key with
      | Some k =>
          if bool_decide (k = []) then
            _insert_image_in_cell w (row !!! 1%nat) None max_w
          else _insert_image_in_cell w (row !!! 1%nat) (images_get images k) max_w
      | None => _insert_image_in_cell w (row !!! 1%nat) None max_w
      end;
  let doc := append_block (BTable (set_rows [<[1%nat := r]> (<[0%nat := l]> row)] tbl))
                          doc in
  mret (append_block (BParagraph empty_paragraph) doc).

Definition add_additional_photo_sections (w : world) (doc : document)
    (images : gmap pystr (option image_arg)) (max_image_width_inches : Z)
    : M document :=
  let max_w := max_image_width_inches in
  (* Section 5: EC / TDS / pH *)
  let doc := item_title "5.  Kualitas Air/Kondisi Air Kanal" doc in
  let tbl5 :=
    set_column_width 2 Inches_3_0
      (set_column_width 1 Inches_3_0
         (set_column_width 0 Inches_3_0 (set_autofit false (new_table 2 3)))) in
  let row0 :=
    fold_left
      (fun row '(i, lbl) =>
         <[i := set_vertical TOP (label_cell lbl (row !!! i))]> row)
      (imap pair [lit "EC"; lit "TDS"; lit "pH"])
      (t_rows tbl5 !!! 0%nat) in
  let row1 := t_rows tbl5 !!! 1%nat in
  c0 ← _insert_image_in_cell w (row1 !!! 0%nat)
         (images_get images (lit "foto_kualitas_air_ec")) max_w;
  c1 ← _insert_image_in_cell w (row1 !!! 1%nat)
         (images_get images (lit "foto_kualitas_air_tds")) max_w;
  c2 ← _insert_image_in_cell w (row1 !!! 2%nat)
         (images_get images (lit "foto_kualitas_air_ph")) max_w;
  let row1 := <[2%nat := c2]> (<[1%nat := c1]> (<[0%nat := c0]> row1)) in
  let doc := append_block (BTable (set_rows [row0; row1] tbl5)) doc in
  let doc := append_block (BParagraph empty_paragraph) doc in
  (* Sections 6 and 7 *)
  doc ← two_image_item w images max_w
          "6.  Pengukuran Tinggi Muka Air Tanah (TMAT) pada lubang bor titik pengamatan"
          "foto_tmat_1" "foto_tmat_2" doc;
  doc ← two_image_item w images max_w "7.  Ketebalan gambut"
          "foto_ketebalan_gambut_1" "foto_ketebalan_gambut_2" doc;
  (* Section 8: EC / pH *)
  let doc := item_title "8.  Karakteristik substratum dibawah lapisan gambut" doc in
  let tbl8 := two_column_table 2 in
  let row0 := t_rows tbl8 !!! 0%nat in
  let row0 := <[1%nat := label_cell (lit "pH") (row0 !!! 1%nat)]>
                (<[0%nat := label_cell (lit "EC") (row0 !!! 0%nat)]> row0) in
  row1 ← insert_pair w (t_rows tbl8 !!! 1%nat)
           (images_get images (lit "foto_substratum_ec"))
           (images_get images (lit "foto_substratum_ph")) max_w;
  let doc := append_block (BTable (set_rows [row0; row1] tbl8)) doc in
  let doc := append_block (BParagraph empty_paragraph) doc in
  (* Sections 9, 10 and 11 *)
  doc ← two_image_item w images max_w
          "9.  Perkembangan kondisi atau tingkat kerusakan lahan gambut (fungsi lindung/fungsi budidaya)"
          "foto_kerusakan_lahan_gambut_1" "foto_kerusakan_lahan_gambut_2" doc;
  doc ← two_image_item w images max_w
          "10.  Karakteristik tanah dan kedalaman lapisan pirit"
          "foto_karakteristik_tanah_pirit_1" "foto_karakteristik_tanah_pirit_2" doc;
  doc ← two_image_item w images max_w "11.  Porositas dan Kelengasan"
          "foto_porositas_kelengasan_1" "foto_porositas_kelengasan_2" doc;
  (* Section 12: Foto Tambahan *)
  let doc := item_title "12.  Foto Tambahan" doc in
  for_each (pair_iter tambahan_keys) (tambahan_pair w images max_w) doc.

(* ===================================================================== *)
(** ** Endpoints                                                         *)
(* ===================================================================== *)

(** Keyword arguments handed to a section builder. *)
Inductive kwarg :=
  | KwText (v : value)
  | KwBytes (b : option (list byte)).

(** A section builder: it appends to the document it is given, or raises. *)
Definition builder : Type := document -> list (string * kwarg) -> result document.

(** The section builders that the module defines. The file keeps their
    names in a comment block headed PLACEHOLDERS, where the definitions
    are to be pasted, and defines none of them. *)
Definition module_builders : gmap string builder := ∅.

(** Calling a module-level name: an unbound name raises [NameError]
    before the arguments are looked at. *)
Definition call_global (env : gmap string builder) (doc : document)
    (call : string * list (string * kwarg)) : M document :=
  match env !! call.1 with
  | Some f => lift (f doc call.2)
  | None => raise (NameError (lit call.1))
  end.

Inductive json :=
  | JString (s : pystr)
  | JList (l : list json)
  | JDict (l : list (pystr * json)).

Inductive response :=
  | JSONResponse (status_code : Z) (content : json)
  | FileResponse (path media_type filename : pystr).

(** The status the client sees: [FileResponse] answers 200, an exception
    that leaves the handler becomes a server error. *)
Definition http_status (r : result response) : Z :=
  match r with
  | Ok (JSONResponse c _) => c
  | Ok (FileResponse _ _ _) => 200
  | Raise _ => 500
  end.

Definition docx_media_type : pystr :=
  lit "application/vnd.openxmlformats-officedocument.wordprocessingml.document".

(** [uuid.uuid4().hex]: the 128-bit value as 32 lower-case hex digits. *)
Definition hex_digit (d : N) : N :=
  if (d <? 10)%N then (48 + d)%N else (87 + d)%N.

Definition uuid_hex (v : N) : pystr :=
  map (fun i => hex_digit ((v / 16 ^ N.of_nat (31 - i)) mod 16)%N) (seq 0 32).

(** [Document()] and the four margins. *)
Definition new_document : M document :=
  emit EvDocument;;
  mret (Document (Some (Margins Inches_1 Inches_1 Inches_1_25 Inches_1_25)) []).

(** [tempfile.NamedTemporaryFile(delete=False, suffix=...)] and [.name]. *)
Definition NamedTemporaryFile (w : world) (suffix : pystr) : M pystr :=
  base ← lift (w_tempfile w);
  emit (EvTempFile (base ++ suffix));;
  mret (base ++ suffix).

(** [doc.save(path)] *)
Definition save (w : world) (doc : document) (path : pystr) : M unit :=
  emit (EvSave path doc);;
  lift (w_save w path).

(** [await upload.read()] *)
Definition read (u : upload) : M (list byte) :=
  emit (EvRead u);;
  lift (up_read u).

(** The tail shared by both endpoints: save to a temporary file, schedule
    its removal, answer with the file. *)
Definition save_and_respond (w : world) (doc : document) (prefix : pystr)
    : M response :=
  tmpf_name ← NamedTemporaryFile w (lit ".docx");
  save w doc tmpf_name;;
  let out_name := prefix ++ uuid_hex (w_uuid4 w) ++ lit ".docx" in
  emit (EvAddTask tmpf_name);;
  mret (FileResponse tmpf_name docx_media_type out_name).

(** *** [generate_full_section] *)

Definition text_params : list string :=
  ["latitude_derajat"; "latitude_menit"; "latitude_detik"; "latitude_arah";
    "longitude_derajat"; "longitude_menit"; "longitude_detik";
    "longitude_arah"; "elevasi_lahan"; "kedalaman_air_tanah"; "genangan";
    "banjir_bulan"; "banjir_lama_hari"; "banjir_ketinggian_air";
    "sumber_air_hujan"; "sumber_air_limpasan_sungai";
    "sumber_air_kiriman_hulu"; "sumber_air_lainnya_checkbox";
    "sumber_air_lainnya_text"; "jenis_tanaman"; "status_masyarakat";
    "status_perusahaan"; "nama_perusahaan"; "luas_konsesi";
    "flora_tidak_ada"; "flora_ada"; "flora_jenis"; "fauna_tidak_ada";
    "fauna_ada"; "fauna_jenis"; "drainase_alami_tidak_ada";
    "drainase_alami_ada"; "drainase_buatan_tidak_ada"; "drainase_buatan_ada";
    "drainase_buatan_saluran_terbuka"; "drainase_buatan_saluran_terkontrol";
    "tinggi_muka_air_saluran"; "kualitas_air_tanah_ph";
    "kualitas_air_saluran_ph"; "kualitas_air_tanah_ec";
    "kualitas_air_saluran_ec"; "kualitas_air_tanah_tds";
    "kualitas_air_saluran_tds"; "substratum_tanah_liat_ph";
    "substratum_tanah_liat_ec"; "tipe_luapan_kemarau_a";
    "tipe_luapan_kemarau_b"; "tipe_luapan_kemarau_c";
    "tipe_luapan_kemarau_d"; "tipe_luapan_hujan_a"; "tipe_luapan_hujan_b";
    "tipe_luapan_hujan_c"; "tipe_luapan_hujan_d"; "ketebalan_gambut_cm";
    "tingkat_perombakan_saprik"; "tingkat_perombakan_hemik";
    "tingkat_perombakan_fibrik"; "substratum_pasir_kwarsa";
    "substratum_clay_sedimen_sungai"; "substratum_sedimen_berpirit";
    "substratum_granit"; "substratum_lainnya_checkbox";
    "substratum_lainnya_text"; "kerusakan_drainase_buatan";
    "kerusakan_terekspos_sedimen"; "kondisi_tanaman_tidak_normal";
    "kondisi_tanaman_tidak_produktif"; "kondisi_tanaman_miring_tumbang";
    "kondisi_tanaman_terjadi_subsiden_checkbox";
    "kondisi_tanaman_subsiden_cm"; "kerapatan_tajuk"; "kebakaran_tahun";
    "kebakaran_bulan"; "kebakaran_tanggal"; "kebakaran_lama_kejadian_bulan";
    "pemadaman_swadaya_masyarakat"; "pemadaman_bantuan_pemerintah";
    "hujan_tanggal"; "hujan_bulan"; "hujan_tahun"; "hujan_lama_kejadian_jam";
    "intensitas_hujan_tinggi"; "intensitas_hujan_sedang";
    "intensitas_hujan_rendah"; "porositas_bobot_isi"; "kelengasan_kadar_air";
    "c_organik"].

Definition file_params : list string :=
  ["sketsa_lokasi_image"; "foto_air_tanah_genangan_1";
    "foto_air_tanah_genangan_2"; "foto_tutupan_lahan_1";
    "foto_tutupan_lahan_2"; "foto_flora_fauna_1"; "foto_flora_fauna_2";
    "foto_drainase_alami"; "foto_drainase_buatan"; "foto_kualitas_air_ec";
    "foto_kualitas_air_tds"; "foto_kualitas_air_ph"; "foto_tmat_1";
    "foto_tmat_2"; "foto_ketebalan_gambut_1"; "foto_ketebalan_gambut_2";
    "foto_substratum_ec"; "foto_substratum_ph";
    "foto_kerusakan_lahan_gambut_1"; "foto_kerusakan_lahan_gambut_2";
    "foto_karakteristik_tanah_pirit_1"; "foto_karakteristik_tanah_pirit_2";
    "foto_porositas_kelengasan_1"; "foto_porositas_kelengasan_2";
    "foto_tambahan_1"; "foto_tambahan_2"; "foto_tambahan_3";
    "foto_tambahan_4"; "foto_tambahan_5"; "foto_tambahan_6";
    "foto_tambahan_7"; "foto_tambahan_8"].

(** What the client sent: text parts and file parts by name. *)
Record submission := Submission {
  sub_text : gmap pystr pystr;
  sub_files : gmap pystr upload
}.

(** The value a parameter of the handler is bound to: every one of them
    defaults to [None]. *)
Definition text_local (sub : submission) (name : string) : value :=
  match sub_text sub !! lit name with
  | Some s => VStr s
  | None => VNone
  end.

Definition file_local (sub : submission) (name : string) : value :=
  match sub_files sub !! lit name with
  | Some u => VUpload u
  | None => VNone
  end.

(** [dict(locals())] on entry. *)
Definition handler_locals (sub : submission) : gmap pystr value :=
  list_to_map
    ((lit "background_tasks", VObj (lit "<BackgroundTasks>"))
     :: map (fun n => (lit n, text_local sub n)) text_params
     ++ map (fun n => (lit n, file_local sub n)) file_params).

Definition numeric_rules : list (pystr * bool) :=
  [(lit "latitude_derajat", false); (lit "latitude_menit", false);
   (lit "latitude_detik", false); (lit "longitude_derajat", false);
   (lit "longitude_menit", false); (lit "longitude_detik", false);
   (lit "elevasi_lahan", false); (lit "kedalaman_air_tanah", false);
   (lit "genangan", false); (lit "banjir_lama_hari", true);
   (lit "banjir_ketinggian_air", false);
   (lit "tinggi_muka_air_saluran", false);
   (lit "kualitas_air_tanah_ph", false);
   (lit "kualitas_air_saluran_ph", false);
   (lit "kualitas_air_tanah_ec", false);
   (lit "kualitas_air_saluran_ec", false);
   (lit "kualitas_air_tanah_tds", false);
   (lit "kualitas_air_saluran_tds", false);
   (lit "substratum_tanah_liat_ph", false);
   (lit "substratum_tanah_liat_ec", false);
   (lit "ketebalan_gambut_cm", false);
   (lit "kondisi_tanaman_subsiden_cm", false);
   (lit "hujan_lama_kejadian_jam", false); (lit "porositas_bobot_isi", false);
   (lit "kelengasan_kadar_air", false); (lit "c_organik", false)].

Definition kws (k v : string) : string * kwarg := (k, KwText (VStr (lit v))).
Definition kwe (k : string) : string * kwarg := (k, KwText (VStr [])).
Definition kwb (k : string) (b : option (list byte)) : string * kwarg :=
  (k, KwBytes b).
Definition kwl (sub : submission) (k : string) : string * kwarg :=
  (k, KwText (text_local sub k)).

(** The builder calls up to the site sketch, in source order. *)
Definition full_section_calls (sub : submission)
    : list (string * list (string * kwarg)) :=
  [
   ("add_formulir_tallysheet",
    [kws "nomor" "1"; kwl sub "latitude_derajat"; kwl sub "latitude_menit";
     kwl sub "latitude_detik"; kwl sub "latitude_arah";
     kwl sub "longitude_derajat"; kwl sub "longitude_menit";
     kwl sub "longitude_detik"; kwl sub "longitude_arah"]);
   ("add_elevasi_lahan_row",
    [kws "nomor" "2"; kwl sub "elevasi_lahan"]);
   ("add_kondisi_air_tanah_row",
    [kwl sub "kedalaman_air_tanah"; kwl sub "genangan";
     kwl sub "banjir_bulan"; kwl sub "banjir_lama_hari";
     kwl sub "banjir_ketinggian_air"; kwl sub "sumber_air_hujan";
     kwl sub "sumber_air_limpasan_sungai"; kwl sub "sumber_air_kiriman_hulu";
     kwl sub "sumber_air_lainnya_checkbox";
     kwl sub "sumber_air_lainnya_text"]);
   ("add_tutupan_lahan_row",
    [kws "nomor" "4"; kwl sub "jenis_tanaman"; kwl sub "status_masyarakat";
     kwl sub "status_perusahaan"; kwl sub "nama_perusahaan";
     kwl sub "luas_konsesi"]);
   ("add_flora_fauna_row",
    [kws "numero" "5"; kwl sub "flora_tidak_ada"; kwl sub "flora_ada";
     kwl sub "flora_jenis"; kwl sub "fauna_tidak_ada"; kwl sub "fauna_ada";
     kwl sub "fauna_jenis"]);
   ("add_drainase_row",
    [kws "nomor" "6"; kwl sub "drainase_alami_tidak_ada";
     kwl sub "drainase_alami_ada"; kwl sub "drainase_buatan_tidak_ada";
     kwl sub "drainase_buatan_ada"; kwl sub "drainase_buatan_saluran_terbuka";
     kwl sub "drainase_buatan_saluran_terkontrol";
     kwl sub "tinggi_muka_air_saluran"]);
   ("add_kualitas_air_row",
    [kws "nomor" "7"; kwl sub "kualitas_air_tanah_ph";
     kwl sub "kualitas_air_saluran_ph"; kwl sub "kualitas_air_tanah_ec";
     kwl sub "kualitas_air_saluran_ec"; kwl sub "kualitas_air_tanah_tds";
     kwl sub "kualitas_air_saluran_tds"]);
   ("add_substratum_tanah_liat_row",
    [kws "nomor" "8"; kwl sub "substratum_tanah_liat_ph";
     kwl sub "substratum_tanah_liat_ec"]);
   ("add_tipe_luapan_row",
    [kws "nomor" "9"; kwl sub "tipe_luapan_kemarau_a";
     kwl sub "tipe_luapan_kemarau_b"; kwl sub "tipe_luapan_kemarau_c";
     kwl sub "tipe_luapan_kemarau_d"; kwl sub "tipe_luapan_hujan_a";
     kwl sub "tipe_luapan_hujan_b"; kwl sub "tipe_luapan_hujan_c";
     kwl sub "tipe_luapan_hujan_d"]);
   ("add_ketebalan_gambut_row",
    [kws "nomor" "10"; kwl sub "ketebalan_gambut_cm";
     kwl sub "tingkat_perombakan_saprik"; kwl sub "tingkat_perombakan_hemik";
     kwl sub "tingkat_perombakan_fibrik"]);
   ("add_substratum_bawah_gambut_row",
    [kws "nomor" "11"; kwl sub "substratum_pasir_kwarsa";
     kwl sub "substratum_clay_sedimen_sungai";
     kwl sub "substratum_sedimen_berpirit"; kwl sub "substratum_granit";
     kwl sub "substratum_lainnya_checkbox";
     kwl sub "substratum_lainnya_text"]);
   ("add_perkembangan_kerusakan_row",
    [kws "nomor" "12"; kwl sub "kerusakan_drainase_buatan";
     kwl sub "kerusakan_terekspos_sedimen";
     kwl sub "kondisi_tanaman_tidak_normal";
     kwl sub "kondisi_tanaman_tidak_produktif";
     kwl sub "kondisi_tanaman_miring_tumbang";
     kwl sub "kondisi_tanaman_terjadi_subsiden_checkbox";
     kwl sub "kondisi_tanaman_subsiden_cm"; kwl sub "kerapatan_tajuk"]);
   ("add_informasi_kebakaran_row",
    [kws "nomor" "13"; kwl sub "kebakaran_tahun"; kwl sub "kebakaran_bulan";
     kwl sub "kebakaran_tanggal"; kwl sub "kebakaran_lama_kejadian_bulan";
     kwl sub "pemadaman_swadaya_masyarakat";
     kwl sub "pemadaman_bantuan_pemerintah"; kwl sub "hujan_tanggal";
     kwl sub "hujan_bulan"; kwl sub "hujan_tahun";
     kwl sub "hujan_lama_kejadian_jam"; kwl sub "intensitas_hujan_tinggi";
     kwl sub "intensitas_hujan_sedang"; kwl sub "intensitas_hujan_rendah"]);
   ("add_analisis_lab_header", []);
   ("add_porositas_row",
    [kws "nomor" "14"; kwl sub "porositas_bobot_isi"]);
   ("add_kelengasan_row",
    [kws "nomor" "15"; kwl sub "kelengasan_kadar_air"]);
   ("add_c_organik_row",
    [kws "nomor" "16"; kwl sub "c_organik"])
  ].

Definition photo_fields : list pystr :=
  [lit "foto_air_tanah_genangan_1"; lit "foto_air_tanah_genangan_2";
   lit "foto_tutupan_lahan_1"; lit "foto_tutupan_lahan_2";
   lit "foto_flora_fauna_1"; lit "foto_flora_fauna_2";
   lit "foto_drainase_alami"; lit "foto_drainase_buatan";
   lit "foto_kualitas_air_ec"; lit "foto_kualitas_air_tds";
   lit "foto_kualitas_air_ph"; lit "foto_tmat_1"; lit "foto_tmat_2";
   lit "foto_ketebalan_gambut_1"; lit "foto_ketebalan_gambut_2";
   lit "foto_substratum_ec"; lit "foto_substratum_ph";
   lit "foto_kerusakan_lahan_gambut_1"; lit "foto_kerusakan_lahan_gambut_2";
   lit "foto_karakteristik_tanah_pirit_1";
   lit "foto_karakteristik_tanah_pirit_2"; lit "foto_porositas_kelengasan_1";
   lit "foto_porositas_kelengasan_2"]
  ++ tambahan_keys.

(** The body of the loop that reads the uploaded photos. *)
Definition read_photo (form : gmap pystr value)
    (images : gmap pystr (option image_arg)) (fname : pystr)
    : M (gmap pystr (option image_arg)) :=
  match dict_get form fname with
  | VUpload upload =>
      try_except
        (content ← read upload;
         mret (<[fname := Some (ImgBytes content)]> images))
        (fun _ => mret (<[fname := None]> images))
  | _ => mret (<[fname := None]> images)
  end.

Definition generate_full_section (env : gmap string builder) (w : world)
    (sub : submission) : M response :=
  let form := handler_locals sub in
  errors ← lift (validate_numeric_fields form numeric_rules);
  match errors with
  | _ :: _ =>
      mret (JSONResponse 422
              (JDict [(lit "detail",
                       JList (map (fun e => JDict [(lit "field", JString (e_field e));
                                                   (lit "msg", JString (e_msg e))])
                                  errors))]))
  | [] =>
      doc ← new_document;
      doc ← for_each (full_section_calls sub) (call_global env) doc;
      (* sketsa lokasi *)
      image_bytes ←
        match file_local sub "sketsa_lokasi_image" with
        | VNone => mret None
        | VUpload u =>
            try_except (content ← read u; mret (Some content))
                       (fun _ => mret None)
        | _ => mret None
        end;
      doc ← call_global env doc
              ("add_sketsa_lokasi_row", [kwb "sketsa_image_bytes" image_bytes]);
      (* collect uploaded photos *)
      images ← for_each photo_fields (read_photo form) ∅;
      doc ← add_foto_lapangan_section w doc images default_max_image_width;
      doc ← add_additional_photo_sections w doc images default_max_image_width;
      save_and_respond w doc (lit "tallysheet_")
  end.

(** *** [generate_sample] *)

Definition sample_calls : list (string * list (string * kwarg)) :=
  [
   ("add_formulir_tallysheet",
    [kws "nomor" "1"; kws "latitude_derajat" "1"; kws "latitude_menit" "23";
     kws "latitude_detik" "45"; kws "latitude_arah" "LS";
     kws "longitude_derajat" "102"; kws "longitude_menit" "10";
     kws "longitude_detik" "12"; kws "longitude_arah" "BT"]);
   ("add_elevasi_lahan_row",
    [kws "nomor" "2"; kws "elevasi_lahan" "12"]);
   ("add_kondisi_air_tanah_row",
    [kws "kedalaman_air_tanah" "45"; kws "genangan" "10";
     kws "banjir_bulan" "Januari"; kws "banjir_lama_hari" "5";
     kws "banjir_ketinggian_air" "20"; kws "sumber_air_hujan" "on";
     kwe "sumber_air_limpasan_sungai"; kws "sumber_air_kiriman_hulu" "on";
     kwe "sumber_air_lainnya_checkbox";
     kws "sumber_air_lainnya_text" "drainase tersumbat"]);
   ("add_tutupan_lahan_row",
    [kws "nomor" "4"; kws "jenis_tanaman" "Kelapa";
     kws "status_masyarakat" "on"; kwe "status_perusahaan";
     kwe "nama_perusahaan"; kwe "luas_konsesi"]);
   ("add_flora_fauna_row",
    [kws "numero" "5"; kwe "flora_tidak_ada"; kws "flora_ada" "on";
     kws "flora_jenis" "Rafflesia"; kwe "fauna_tidak_ada";
     kws "fauna_ada" "on"; kws "fauna_jenis" "Orangutan"]);
   ("add_drainase_row",
    [kws "nomor" "6"; kwe "drainase_alami_tidak_ada";
     kws "drainase_alami_ada" "on"; kwe "drainase_buatan_tidak_ada";
     kws "drainase_buatan_ada" "on";
     kws "drainase_buatan_saluran_terbuka" "on";
     kwe "drainase_buatan_saluran_terkontrol";
     kws "tinggi_muka_air_saluran" "30"]);
   ("add_kualitas_air_row",
    [kws "nomor" "7"; kws "kualitas_air_tanah_ph" "4.2";
     kws "kualitas_air_saluran_ph" "5.6"; kws "kualitas_air_tanah_ec" "120";
     kws "kualitas_air_saluran_ec" "200"; kws "kualitas_air_tanah_tds" "50";
     kws "kualitas_air_saluran_tds" "80"]);
   ("add_substratum_tanah_liat_row",
    [kws "nomor" "8"; kws "substratum_tanah_liat_ph" "6.6";
     kws "substratum_tanah_liat_ec" "300"]);
   ("add_tipe_luapan_row",
    [kws "nomor" "9"; kws "tipe_luapan_kemarau_a" "on";
     kwe "tipe_luapan_kemarau_b"; kwe "tipe_luapan_kemarau_c";
     kwe "tipe_luapan_kemarau_d"; kwe "tipe_luapan_hujan_a";
     kws "tipe_luapan_hujan_b" "on"; kwe "tipe_luapan_hujan_c";
     kwe "tipe_luapan_hujan_d"]);
   ("add_ketebalan_gambut_row",
    [kws "nomor" "10"; kws "ketebalan_gambut_cm" "120";
     kws "tingkat_perombakan_saprik" "on"; kwe "tingkat_perombakan_hemik";
     kwe "tingkat_perombakan_fibrik"]);
   ("add_substratum_bawah_gambut_row",
    [kws "nomor" "11"; kws "substratum_pasir_kwarsa" "on";
     kwe "substratum_clay_sedimen_sungai"; kwe "substratum_sedimen_berpirit";
     kwe "substratum_granit"; kwe "substratum_lainnya_checkbox";
     kwe "substratum_lainnya_text"]);
   ("add_perkembangan_kerusakan_row",
    [kws "nomor" "12"; kws "kerusakan_drainase_buatan" "on";
     kwe "kerusakan_terekspos_sedimen";
     kws "kondisi_tanaman_tidak_normal" "on";
     kwe "kondisi_tanaman_tidak_produktif";
     kwe "kondisi_tanaman_miring_tumbang";
     kwe "kondisi_tanaman_terjadi_subsiden_checkbox";
     kwe "kondisi_tanaman_subsiden_cm"; kws "kerapatan_tajuk" "3"]);
   ("add_informasi_kebakaran_row",
    [kws "nomor" "13"; kws "kebakaran_tahun" "2023";
     kws "kebakaran_bulan" "Agustus"; kws "kebakaran_tanggal" "15";
     kws "kebakaran_lama_kejadian_bulan" "1";
     kws "pemadaman_swadaya_masyarakat" "on";
     kwe "pemadaman_bantuan_pemerintah"; kws "hujan_tanggal" "10";
     kws "hujan_bulan" "07"; kws "hujan_tahun" "2024";
     kws "hujan_lama_kejadian_jam" "6"; kws "intensitas_hujan_tinggi" "on";
     kwe "intensitas_hujan_sedang"; kwe "intensitas_hujan_rendah"]);
   ("add_analisis_lab_header", []);
   ("add_porositas_row",
    [kws "nomor" "14"; kws "porositas_bobot_isi" "45"]);
   ("add_kelengasan_row",
    [kws "nomor" "15"; kws "kelengasan_kadar_air" "85"]);
   ("add_c_organik_row",
    [kws "nomor" "16"; kws "c_organik" "58"]);
   ("add_sketsa_lokasi_row",
    [kwb "sketsa_image_bytes" None])
  ].

Definition generate_sample (env : gmap string builder) (w : world)
    : M response :=
  doc ← new_document;
  doc ← for_each sample_calls (call_global env) doc;
  doc ← add_foto_lapangan_section w doc ∅ default_max_image_width;
  doc ← add_additional_photo_sections w doc ∅ default_max_image_width;
  save_and_respond w doc (lit "tallysheet_sample_").

(* ===================================================================== *)
(** ** The stated behaviour, in the words of the specification           *)
(* ===================================================================== *)

(** The field is absent, or blank: missing from the mapping, [None], or
    empty after trimming. *)
Definition absent_or_blank (form : gmap pystr value) (field : pystr) : Prop :=
  form !! field = None
  ∨ form !! field = Some VNone
  ∨ ∃ v, form !! field = Some v ∧ Py.strip (str v) = [].

(** The field was supplied, and [s] is its trimmed, non-empty text. *)
Definition supplied (form : gmap pystr value) (field s : pystr) : Prop :=
  ∃ v, form !! field = Some v ∧ v ≠ VNone ∧ s = Py.strip (str v) ∧ s ≠ [].

(** The text parses under the declared numeric kind. *)
Definition parses (is_int : bool) (s : pystr) : Prop :=
  if is_int then ∃ n, Py.int s = Ok n else ∃ x, Py.float s = Ok x.

Definition kind_name (is_int : bool) : pystr :=
  if is_int then lit "integer" else lit "number".

(** The error list the specification asks for, rule by rule: nothing for
    an absent or blank field, nothing for a text that parses, one record
    with the field name and the message for a text that does not. *)
Inductive reports (form : gmap pystr value)
    : list (pystr * bool) -> list error_entry -> Prop :=
  | reports_done : reports form [] []
  | reports_blank field is_int rules errs :
      absent_or_blank form field ->
      reports form rules errs ->
      reports form ((field, is_int) :: rules) errs
  | reports_valid field is_int s rules errs :
      supplied form field s ->
      parses is_int s ->
      reports form rules errs ->
      reports form ((field, is_int) :: rules) errs
  | reports_invalid field is_int s rules errs :
      supplied form field s ->
      ¬ parses is_int s ->
      reports form rules errs ->
      reports form ((field, is_int) :: rules)
        (ErrorEntry field
           (lit "Expected " ++ kind_name is_int ++ lit " but got '" ++ s ++ lit "'")
         :: errs).

(** The same verdict on one rule as a computation: the record it adds. *)
Definition verdict (form : gmap pystr value) (rule : pystr * bool)
    : option error_entry :=
  let val := dict_get form rule.1 in
  if is_unset val then None
  else
    let s := Py.strip (str val) in
    if is_Ok (parse_as rule.2 s) then None
    else Some (ErrorEntry rule.1 (expected_msg rule.2 s)).

(** A rule that fails: its field is supplied and does not parse. *)
Definition invalid (form : gmap pystr value) (rule : pystr * bool) : bool :=
  bool_decide (is_Some (verdict form rule)).

(** An ASCII digit, and an optional sign as the numeric literals allow. *)
Definition ascii_digit (c : N) : bool := ((48 <=? c) && (c <=? 57))%N.

Definition optional_sign (sgn : pystr) : Prop :=
  sgn = [] ∨ sgn = lit "+" ∨ sgn = lit "-".

(** The runs the inserter writes for a missing and for a broken image. *)
Definition no_image_run : run :=
  Run (lit "(no image)") [] (Some (lit "Cambria")) (Some 10%Z)
      (Some false) (Some true).

Definition error_run : run :=
  Run (lit "(error inserting image)") [] (Some (lit "Cambria")) (Some 9%Z)
      (Some false) (Some true).

(** The text carried by all runs of a cell. *)
Definition cell_runs_text (c : Docx.cell) : pystr :=
  concat (map r_text (cell_runs c)).

Definition is_hex_digit (c : N) : bool :=
  ((48 <=? c) && (c <=? 57) || (97 <=? c) && (c <=? 102))%N.

(** A computation that ends normally whatever was logged before. *)
Definition returns {A} (m : M A) : Prop :=
  ∀ tr, ∃ a tr', m tr = (Ok a, tr').

(** Every builder a handler calls is bound in the module and returns
    normally on every document and argument list. *)
Definition builders_defined (env : gmap string builder)
    (calls : list (string * list (string * kwarg))) : Prop :=
  Forall (fun call =>
            ∃ f, env !! call.1 = Some f ∧ ∀ doc kw, ∃ doc', f doc kw = Ok doc')
         calls.



(* ===================================================================== *)
(** ** Vocabulary for the effects of the inserter and the builders       *)
(* ===================================================================== *)

(** The library call that a source leads to: one [add_picture], or none
    for a source that counts as false. *)
Definition attempt (src : option image_arg) : list event :=
  match src with
  | Some x => if truthy src then [EvAddPicture (picture_source x)] else []
  | None => []
  end.

(** The runs the inserter leaves in the first paragraph. *)
Definition written (w : world) (src : option image_arg) (mw : Z) : list run :=
  match src with
  | Some x =>
      if truthy src then
        match w_add_picture w (picture_source x) with
        | Ok _ => [with_picture (new_run []) (Picture (picture_source x) mw)]
        | Raise _ => [new_run []; error_run]
        end
      else [no_image_run]
  | None => [no_image_run]
  end.

(** The cell the inserter leaves. *)
Definition inserted (w : world) (c : Docx.cell) (src : option image_arg)
    (mw : Z) : Docx.cell :=
  Cell (Paragraph (Some CENTER) (written w src mw)) (map clear (c_rest c))
       (c_vertical c) (c_span c).

(** A cell of a new row after the inserter has filled it. *)
Definition image_cell (w : world) (v : option vertical)
    (src : option image_arg) (mw : Z) : Docx.cell :=
  Cell (Paragraph (Some CENTER) (written w src mw)) [] v 1.

(** [m] ends normally whatever was logged before, logs exactly [evs], and
    its result satisfies [post]. *)
Definition produces {A} (m : M A) (evs : list event) (post : A -> Prop) : Prop :=
  ∀ tr, ∃ a, m tr = (Ok a, tr ++ evs) ∧ post a.

(** Two computations that behave alike after every log. *)
Definition agree {A} (m m' : M A) : Prop := ∀ tr, m tr = m' tr.

Definition is_table (b : block) : bool :=
  match b with BTable _ => true | BParagraph _ => false end.

(** The last row of a table block: the row that holds its images. *)
Definition image_row_of (b : block) : list Docx.cell :=
  match b with
  | BTable t => default [] (last (t_rows t))
  | BParagraph _ => []
  end.

(** What reading a photo field gives: the bytes of the upload bound to
    it, or [None] when there is no upload or reading it raises. *)
Definition photo_of (form : gmap pystr value) (fname : pystr)
    : option image_arg :=
  match dict_get form fname with
  | VUpload u =>
      match up_read u with
      | Ok content => Some (ImgBytes content)
      | Raise _ => None
      end
  | _ => None
  end.

(** The read that a field leads to: one per upload. *)
Definition read_of (form : gmap pystr value) (fname : pystr) : list event :=
  match dict_get form fname with
  | VUpload u => [EvRead u]
  | _ => []
  end.

(** The same for the file parts of a submission. *)
Definition uploaded (sub : submission) (fname : pystr) : option image_arg :=
  match sub_files sub !! fname with
  | Some u =>
      match up_read u with
      | Ok content => Some (ImgBytes content)
      | Raise _ => None
      end
  | None => None
  end.

Definition read_attempt (sub : submission) (fname : pystr) : list event :=
  match sub_files sub !! fname with
  | Some u => [EvRead u]
  | None => []
  end.

(** The builder of the site sketch is bound and returns normally. *)
Definition sketsa_builder_defined (env : gmap string builder) : Prop :=
  ∃ f, env !! "add_sketsa_lokasi_row" = Some f
       ∧ ∀ doc kw, ∃ doc', f doc kw = Ok doc'.

(** A module in which every builder is bound to a function that adds
    nothing. *)
Definition stub_builders : gmap string builder :=
  list_to_map (map (fun call => (call.1, fun doc _ => Ok doc)) sample_calls).

(* ===================================================================== *)
(** ** Facts about the runtime model                                     *)
(* ===================================================================== *)

Section strip_facts.
Variable sp : N -> bool.

Lemma lstrip_with_app_spaces (pad s : pystr) :
  forallb sp pad = true ->
  Py.lstrip_with sp (pad ++ s) = Py.lstrip_with sp s.
Proof.
  induction pad as [|c pad IH]; simpl; [done|].
  intros [Hc Hpad]%andb_prop. rewrite Hc. auto.
Qed.

Lemma lstrip_with_suffix (s : pystr) :
  ∃ pad, s = pad ++ Py.lstrip_with sp s ∧ forallb sp pad = true.
Proof.
  induction s as [|c s [pad [IH1 IH2]]]; simpl.
  - by exists [].
  - destruct (sp c) eqn:Hc.
    + exists (c :: pad). simpl. rewrite Hc, IH2. split; [congruence|done].
    + by exists [].
Qed.

Lemma lstrip_with_head (s : pystr) c r :
  Py.lstrip_with sp s = c :: r -> sp c = false.
Proof.
  induction s as [|a s IH]; simpl; [done|].
  destruct (sp a) eqn:Ha; [done|]. by intros [= <- _].
Qed.

Lemma forallb_rev_true (l : pystr) :
  forallb sp l = true -> forallb sp (rev l) = true.
Proof.
  rewrite !forallb_forall. intros H x Hx. apply H. by apply in_rev.
Qed.

(** Padding with white space on either side does not change what
    [strip] returns. *)
Lemma strip_with_padding (l s r : pystr) :
  forallb sp l = true -> forallb sp r = true ->
  Py.strip_with sp (l ++ s ++ r) = Py.strip_with sp s.
Proof.
  intros Hl Hr. unfold Py.strip_with.
  rewrite lstrip_with_app_spaces by done.
  destruct (Py.lstrip_with sp s) as [|c t] eqn:E.
  - destruct (lstrip_with_suffix s) as [pad [Hs Hpad]].
    rewrite E, app_nil_r in Hs. subst pad.
    rewrite <- (app_nil_r (s ++ r)), lstrip_with_app_spaces.
    + done.
    + rewrite forallb_app. by rewrite Hpad, Hr.
  - destruct (lstrip_with_suffix s) as [pad [Hs Hpad]].
    rewrite E in Hs. pose proof (lstrip_with_head _ _ _ E) as Hc.
    subst s. rewrite <- app_assoc.
    rewrite lstrip_with_app_spaces by done. simpl. rewrite Hc.
    change (c :: t ++ r) with ((c :: t) ++ r).
    rewrite rev_app_distr, lstrip_with_app_spaces; [done|].
    by apply forallb_rev_true.
Qed.
(** [strip] leaves alone a text that neither starts nor ends with white
    space. *)
Lemma strip_with_tight (s : pystr) :
  (∀ c r, s = c :: r -> sp c = false) ->
  (∀ c r, rev s = c :: r -> sp c = false) ->
  Py.strip_with sp s = s.
Proof.
  intros Hh Hl. unfold Py.strip_with.
  assert (Py.lstrip_with sp s = s) as ->.
  { destruct s as [|c r]; [done|]. simpl. by rewrite (Hh c r). }
  assert (Py.lstrip_with sp (rev s) = rev s) as ->.
  { destruct (rev s) as [|c r] eqn:E; [done|]. simpl. by rewrite (Hl c r). }
  apply rev_involutive.
Qed.

(** What [strip] returns neither starts nor ends with white space. *)
Lemma strip_with_ends (s : pystr) :
  (∀ c r, Py.strip_with sp s = c :: r -> sp c = false)
  ∧ (∀ c r, rev (Py.strip_with sp s) = c :: r -> sp c = false).
Proof.
  unfold Py.strip_with. split; intros c r E.
  - destruct (lstrip_with_suffix (rev (Py.lstrip_with sp s))) as [pad [Hs _]].
    apply (f_equal (@rev N)) in Hs.
    rewrite rev_involutive, rev_app_distr, E in Hs.
    by apply (lstrip_with_head s c (r ++ rev pad)).
  - rewrite rev_involutive in E. by apply (lstrip_with_head _ _ _ E).
Qed.

End strip_facts.

(** The trimming the numeric builtins do themselves changes nothing in a
    text that [strip] has trimmed. *)
Lemma numeric_trim_after_strip (s : pystr) :
  Py.strip_with Py.isspace_num (Py.strip s) = Py.strip s.
Proof.
  destruct (strip_with_ends Py.isspace s) as [Hh Hl].
  apply strip_with_tight; intros c r E; unfold Py.isspace_num.
  - by rewrite (Hh c r E).
  - by rewrite (Hl c r E).
Qed.

(* ===================================================================== *)
(** ** The formatting helpers                                            *)
(* ===================================================================== *)

Lemma is_unset_spec (v : value) :
  is_unset v = true ↔ v = VNone ∨ Py.strip (str v) = [].
Proof.
  destruct v; simpl; rewrite ?bool_decide_eq_true; split;
    try (intros [?|?]); auto; done.
Qed.

Lemma is_unset_false (v : value) :
  is_unset v = false ↔ v ≠ VNone ∧ Py.strip (str v) ≠ [].
Proof.
  rewrite <- not_true_iff_false, is_unset_spec. split.
  - intros H. split; intros ?; apply H; auto.
  - intros [H1 H2] [?|?]; auto.
Qed.

Lemma VStr_not_None (s : pystr) : VStr s ≠ VNone.
Proof. done. Qed.

(** C5. [format_input_text] returns the value unchanged, as text, when
    it is non-empty after trimming; for an absent, empty or
    white-space-only value it returns underscores only, as many as the
    placeholder length says (none for a length below one); the default
    length is 6, so [None] and three spaces give six underscores and
    the text 42 comes back as it is. *)
Theorem format_input_text_contract :
  (∀ (v : value) (n : Z),
      v ≠ VNone ∧ Py.strip (str v) ≠ [] -> format_input_text v n = str v)
  ∧ (∀ (s : pystr) (n : Z),
      Py.strip s ≠ [] -> format_input_text (VStr s) n = s)
  ∧ (∀ (v : value) (n : Z),
      v = VNone ∨ Py.strip (str v) = [] ->
      format_input_text v n = replicate (Z.to_nat n) Py.underscore
      ∧ Z.of_nat (length (format_input_text v n)) = Z.max 0 n)
  ∧ default_placeholder_length = 6%Z
  ∧ format_input_text VNone default_placeholder_length = lit "______"
  ∧ format_input_text (VStr (lit "   ")) default_placeholder_length = lit "______"
  ∧ format_input_text (VStr (lit "42")) default_placeholder_length = lit "42".
Proof.
  assert (Hset : ∀ v n, v ≠ VNone ∧ Py.strip (str v) ≠ [] ->
                        format_input_text v n = str v).
  { intros v n Hv. unfold format_input_text.
    by rewrite (proj2 (is_unset_false v) Hv). }
  assert (Hunset : ∀ v n, v = VNone ∨ Py.strip (str v) = [] ->
            format_input_text v n = replicate (Z.to_nat n) Py.underscore).
  { intros v n Hv. unfold format_input_text.
    by rewrite (proj2 (is_unset_spec v) Hv). }
  split; [exact Hset|].
  split; [intros s n Hs; apply (Hset (VStr s)); split; [apply VStr_not_None|exact Hs]|].
  split.
  { intros v n Hv. rewrite (Hunset v n Hv). split; [done|].
    rewrite length_replicate. lia. }
  repeat split.
Qed.

(** C6. [format_checkbox_as_X] returns X exactly when the value is
    non-empty after trimming and a single underscore otherwise, that
    is, for [None], the empty string and white space only. *)
Theorem format_checkbox_as_X_contract :
  (∀ v : value,
      format_checkbox_as_X v = lit "X" ↔ v ≠ VNone ∧ Py.strip (str v) ≠ [])
  ∧ (∀ v : value,
      format_checkbox_as_X v = lit "_" ↔ v = VNone ∨ Py.strip (str v) = [])
  ∧ format_checkbox_as_X (VStr (lit "on")) = lit "X"
  ∧ format_checkbox_as_X (VStr []) = lit "_"
  ∧ format_checkbox_as_X VNone = lit "_".
Proof.
  split; [|split; [|repeat split]].
  - intros v. rewrite <- is_unset_false. unfold format_checkbox_as_X.
    destruct (is_unset v); split; done.
  - intros v. rewrite <- is_unset_spec. unfold format_checkbox_as_X.
    destruct (is_unset v); split; done.
Qed.

(* ===================================================================== *)
(** ** The numeric validator                                             *)
(* ===================================================================== *)

Section validator.
Variable form : gmap pystr value.

Lemma is_unset_dict_get (field : pystr) :
  is_unset (dict_get form field) = true ↔ absent_or_blank form field.
Proof.
  unfold dict_get, absent_or_blank. rewrite is_unset_spec.
  destruct (form !! field) as [v|]; simpl.
  - split.
    + intros [-> | H]; [by right; left|]. right; right. by exists v.
    + intros [H | [[= ->] | [v' [[= <-] H]]]]; [done|by left|by right].
  - split; [by left | by left].
Qed.

Lemma supplied_dict_get (field s : pystr) :
  supplied form field s ↔
  is_unset (dict_get form field) = false ∧ s = Py.strip (str (dict_get form field)).
Proof.
  unfold supplied, dict_get. rewrite is_unset_false. split.
  - intros (v & -> & Hv & -> & Hs). simpl. done.
  - destruct (form !! field) as [v|]; simpl.
    + intros [[Hv Hs] ->]. by exists v.
    + by intros [[? _] _].
Qed.

Lemma parses_is_Ok (is_int : bool) (s : pystr) :
  parses is_int s ↔ is_Ok (parse_as is_int s) = true.
Proof.
  unfold parses, parse_as. destruct is_int.
  - destruct (Py.int s) as [n|e]; simpl; split; try done.
    + by exists n.
    + by intros [? ?].
  - destruct (Py.float s) as [x|e]; simpl; split; try done.
    + by exists x.
    + by intros [? ?].
Qed.

Lemma expected_msg_kind (is_int : bool) (s : pystr) :
  expected_msg is_int s
  = lit "Expected " ++ kind_name is_int ++ lit " but got '" ++ s ++ lit "'".
Proof. by destruct is_int. Qed.

(** The loop adds to [errors] the verdicts on the rules, in order. *)
Lemma validate_loop_verdicts (rules : list (pystr * bool))
    (errors : list error_entry) :
  validate_loop form rules errors = Ok (errors ++ omap (verdict form) rules).
Proof.
  revert errors. induction rules as [|[field is_int] rules IH]; intros errors.
  - simpl. by rewrite app_nil_r.
  - simpl. unfold verdict at 1. simpl.
    destruct (is_unset (dict_get form field)); [apply IH|].
    destruct (parse_as is_int _); simpl; [apply IH|].
    rewrite IH. by rewrite <- app_assoc.
Qed.

Lemma validate_verdicts (rules : list (pystr * bool)) :
  validate_numeric_fields form rules = Ok (omap (verdict form) rules).
Proof. apply validate_loop_verdicts. Qed.

Lemma verdict_None (field : pystr) (is_int : bool) :
  verdict form (field, is_int) = None ↔
  absent_or_blank form field ∨ ∃ s, supplied form field s ∧ parses is_int s.
Proof.
  unfold verdict. simpl. split.
  - destruct (is_unset (dict_get form field)) eqn:E.
    + intros _. left. by apply is_unset_dict_get.
    + destruct (is_Ok _) eqn:P; [|done]. intros _. right.
      eexists. split; [by apply supplied_dict_get|by apply parses_is_Ok].
  - intros [H | (s & Hs & Hp)].
    + by rewrite (proj2 (is_unset_dict_get field) H).
    + apply supplied_dict_get in Hs as [-> ->].
      by rewrite (proj1 (parses_is_Ok _ _) Hp).
Qed.

Lemma verdict_Some (field : pystr) (is_int : bool) (e : error_entry) :
  verdict form (field, is_int) = Some e ↔
  ∃ s, supplied form field s ∧ ¬ parses is_int s
       ∧ e = ErrorEntry field
               (lit "Expected " ++ kind_name is_int ++ lit " but got '" ++ s ++ lit "'").
Proof.
  unfold verdict. simpl. split.
  - destruct (is_unset (dict_get form field)) eqn:E; [done|].
    destruct (is_Ok _) eqn:P; [done|]. intros [= <-].
    eexists. split; [by apply supplied_dict_get|]. split.
    + rewrite parses_is_Ok. by rewrite P.
    + by rewrite expected_msg_kind.
  - intros (s & Hs & Hp & ->).
    apply supplied_dict_get in Hs as [-> ->].
    rewrite parses_is_Ok in Hp. apply not_true_is_false in Hp. rewrite Hp.
    by rewrite expected_msg_kind.
Qed.

Lemma invalid_spec (rule : pystr * bool) :
  invalid form rule = true ↔ ∃ s, supplied form rule.1 s ∧ ¬ parses rule.2 s.
Proof.
  unfold invalid. rewrite bool_decide_eq_true. destruct rule as [f k]. simpl.
  split.
  - intros [e He]. apply verdict_Some in He as (s & ? & ? & _). eauto.
  - intros (s & Hs & Hp). eexists. apply verdict_Some. eauto.
Qed.

Lemma invalid_false (rule : pystr * bool) :
  invalid form rule = false ↔
  absent_or_blank form rule.1 ∨ ∃ s, supplied form rule.1 s ∧ parses rule.2 s.
Proof.
  destruct rule as [f k]. simpl. rewrite <- verdict_None.
  unfold invalid. rewrite bool_decide_eq_false.
  destruct (verdict form (f, k)) as [e|].
  - split; [|done]. intros H. destruct H. by eexists.
  - split; [done|]. intros _ H. by destruct H.
Qed.

Lemma reports_verdicts (rules : list (pystr * bool)) :
  reports form rules (omap (verdict form) rules).
Proof.
  induction rules as [|[field is_int] rules IH]; simpl; [constructor|].
  destruct (verdict form (field, is_int)) as [e|] eqn:E.
  - apply verdict_Some in E as (s & Hs & Hp & ->).
    by eapply reports_invalid.
  - apply verdict_None in E as [H | (s & Hs & Hp)].
    + by apply reports_blank.
    + by eapply reports_valid.
Qed.

Lemma supplied_functional (field s1 s2 : pystr) :
  supplied form field s1 -> supplied form field s2 -> s1 = s2.
Proof.
  intros (v1 & H1 & _ & -> & _) (v2 & H2 & _ & -> & _). congruence.
Qed.

Lemma supplied_not_blank (field s : pystr) :
  supplied form field s -> ¬ absent_or_blank form field.
Proof.
  intros Hs Hb. apply is_unset_dict_get in Hb.
  apply supplied_dict_get in Hs as [Hs _]. congruence.
Qed.

(** The stated behaviour determines the error list. *)
Lemma reports_functional (rules : list (pystr * bool))
    (errs1 errs2 : list error_entry) :
  reports form rules errs1 -> reports form rules errs2 -> errs1 = errs2.
Proof.
  intros H1. revert errs2.
  induction H1 as [|f k rules errs Hb _ IH|f k s rules errs Hs Hp _ IH
                   |f k s rules errs Hs Hp _ IH];
    intros errs2 H2; inversion H2; subst; auto;
    try (exfalso; eapply supplied_not_blank; eauto; fail);
    match goal with
    | H : supplied _ _ ?s' |- _ =>
        assert (s' = s) as -> by (eapply supplied_functional; eauto)
    end;
    first [ done | f_equal; auto ].
Qed.

Lemma invalid_verdict_Some (rule : pystr * bool) (e : error_entry) :
  verdict form rule = Some e -> invalid form rule = true.
Proof. intros E. unfold invalid. rewrite E. by apply bool_decide_eq_true_2. Qed.

Lemma invalid_verdict_None (rule : pystr * bool) :
  verdict form rule = None -> invalid form rule = false.
Proof.
  intros E. unfold invalid. rewrite E. apply bool_decide_eq_false_2.
  intros H. by destruct H.
Qed.

Lemma omap_verdict_fields (rules : list (pystr * bool)) :
  map e_field (omap (verdict form) rules)
  = map fst (List.filter (invalid form) rules).
Proof.
  induction rules as [|[f k] rules IH]; [done|].
  cbn [omap list_omap List.filter].
  destruct (verdict form (f, k)) as [e|] eqn:E.
  - rewrite (invalid_verdict_Some _ _ E). cbn [map fst].
    apply verdict_Some in E as (s & _ & _ & ->). simpl. by rewrite IH.
  - by rewrite (invalid_verdict_None _ E).
Qed.

Lemma omap_verdict_nil (rules : list (pystr * bool)) :
  omap (verdict form) rules = [] ↔
  Forall (fun rule => invalid form rule = false) rules.
Proof.
  induction rules as [|[f k] rules IH].
  - split; [constructor|done].
  - rewrite Forall_cons. cbn [omap list_omap].
    destruct (verdict form (f, k)) as [e|] eqn:E.
    + rewrite (invalid_verdict_Some _ _ E). split; [done|]. by intros [? _].
    + rewrite (invalid_verdict_None _ E), IH. split; [done|]. by intros [_ ?].
Qed.

Lemma omap_verdict_length (rules : list (pystr * bool)) :
  length (omap (verdict form) rules) = length (List.filter (invalid form) rules).
Proof.
  rewrite <- (length_map e_field), omap_verdict_fields. by rewrite length_map.
Qed.

End validator.

(** C1. The validator skips a rule whose field is absent or blank, adds
    exactly one record, holding the field name and a message with the
    expected kind and the supplied text as trimmed, for a rule whose
    trimmed text does not parse, and goes on after a failure: the list it
    returns is the one the specification describes rule by rule, with
    one entry per failing rule, and it is empty exactly when every rule
    passes. *)
Theorem validate_numeric_fields_contract
    (form : gmap pystr value) (rules : list (pystr * bool)) :
  ∃ errs,
    validate_numeric_fields form rules = Ok errs
    ∧ reports form rules errs
    ∧ (∀ errs', reports form rules errs' -> errs' = errs)
    ∧ length errs = length (List.filter (invalid form) rules)
    ∧ (∀ rule, invalid form rule = true ↔
               ∃ s, supplied form rule.1 s ∧ ¬ parses rule.2 s)
    ∧ (errs = [] ↔
       Forall (fun rule =>
                 absent_or_blank form rule.1
                 ∨ ∃ s, supplied form rule.1 s ∧ parses rule.2 s) rules).
Proof.
  exists (omap (verdict form) rules).
  split; [apply validate_verdicts|].
  split; [apply reports_verdicts|].
  split.
  { intros errs' H. eapply reports_functional; [exact H|apply reports_verdicts]. }
  split; [apply omap_verdict_length|].
  split; [apply invalid_spec|].
  rewrite omap_verdict_nil. apply Forall_proper; [|done].
  intros rule. apply invalid_false.
Qed.

Lemma omap_verdict_sublist (form : gmap pystr value)
    (rules : list (pystr * bool)) :
  sublist (map e_field (omap (verdict form) rules)) (map fst rules).
Proof.
  induction rules as [|[f k] rules IH]; [constructor|].
  cbn [omap list_omap map fst].
  destruct (verdict form (f, k)) as [e|] eqn:E.
  - apply verdict_Some in E as (s & _ & _ & ->). simpl. by constructor.
  - by constructor.
Qed.

Lemma omap_verdict_count (form : gmap pystr value)
    (rules : list (pystr * bool)) (field : pystr) :
  length (List.filter (fun e => bool_decide (e_field e = field))
                      (omap (verdict form) rules))
  = length (List.filter
              (fun rule => bool_decide (rule.1 = field) && invalid form rule)
              rules).
Proof.
  induction rules as [|[f k] rules IH]; [done|].
  cbn [omap list_omap List.filter].
  destruct (verdict form (f, k)) as [e|] eqn:E.
  - rewrite (invalid_verdict_Some _ _ _ E), andb_true_r.
    apply verdict_Some in E as (s & _ & _ & ->). cbn [List.filter e_field fst].
    destruct (bool_decide (f = field)); simpl; by rewrite IH.
  - by rewrite (invalid_verdict_None _ _ E), andb_false_r.
Qed.

(** C9. The validator never raises; its error list follows the order of
    the rule list (the errors of a rule list cut in two are those of the
    first part followed by those of the second, and the fields named are
    those of the failing rules, in order); a field named by several
    failing rules gets one entry per such rule; the list is never longer
    than the rule list. *)
Theorem validate_numeric_fields_total_in_order
    (form : gmap pystr value) (rules : list (pystr * bool)) :
  ∃ errs,
    validate_numeric_fields form rules = Ok errs
    ∧ map e_field errs = map fst (List.filter (invalid form) rules)
    ∧ sublist (map e_field errs) (map fst rules)
    ∧ (∀ rules1 rules2, rules = rules1 ++ rules2 ->
         ∃ errs1 errs2,
           validate_numeric_fields form rules1 = Ok errs1
           ∧ validate_numeric_fields form rules2 = Ok errs2
           ∧ errs = errs1 ++ errs2)
    ∧ (∀ field,
         length (List.filter (fun e => bool_decide (e_field e = field)) errs)
         = length (List.filter
                     (fun rule => bool_decide (rule.1 = field) && invalid form rule)
                     rules))
    ∧ length errs ≤ length rules.
Proof.
  exists (omap (verdict form) rules).
  split; [apply validate_verdicts|].
  split; [apply omap_verdict_fields|].
  split; [apply omap_verdict_sublist|].
  split.
  { intros r1 r2 ->. exists (omap (verdict form) r1), (omap (verdict form) r2).
    rewrite !validate_verdicts. split; [done|]. split; [done|].
    apply omap_app. }
  split; [apply omap_verdict_count|].
  pose proof (sublist_length _ _ (omap_verdict_sublist form rules)) as H.
  by rewrite !length_map in H.
Qed.

(* ===================================================================== *)
(** ** The rule table of the full-section endpoint                       *)
(* ===================================================================== *)

Lemma numeric_rules_fields_NoDup : NoDup (map fst numeric_rules).
Proof. apply (bool_decide_unpack _). by vm_compute. Qed.

Lemma NoDup_fst_functional {A B} (l : list (A * B)) (a : A) (b1 b2 : B) :
  NoDup (map fst l) -> (a, b1) ∈ l -> (a, b2) ∈ l -> b1 = b2.
Proof.
  induction l as [|[a' b'] l IH]; simpl.
  - intros _ H. by apply elem_of_nil in H.
  - rewrite NoDup_cons. intros [Hn Hd].
    rewrite !elem_of_cons. intros [[= -> ->] | H1] [[= <-] | H2]; auto.
    + exfalso. apply Hn. apply (list_elem_of_fmap_2 fst) in H2. done.
    + exfalso. apply Hn. apply (list_elem_of_fmap_2 fst) in H1.
      simplify_eq. done.
Qed.

(** An entry naming a field stems from a failing rule on that field. *)
Lemma reported_field (form : gmap pystr value) (rules : list (pystr * bool))
    (field : pystr) :
  (∃ e, e ∈ omap (verdict form) rules ∧ e_field e = field) ↔
  ∃ is_int, (field, is_int) ∈ rules ∧ invalid form (field, is_int) = true.
Proof.
  split.
  - intros (e & He & <-). apply list_elem_of_omap in He as ([f k] & Hr & Hv).
    pose proof (invalid_verdict_Some _ _ _ Hv) as Hi.
    apply verdict_Some in Hv as (s & _ & _ & ->). simpl. eauto.
  - intros (k & Hr & Hi). unfold invalid in Hi.
    apply bool_decide_eq_true in Hi as [e He]. exists e. split.
    + apply list_elem_of_omap. eauto.
    + by apply verdict_Some in He as (s & _ & _ & ->).
Qed.

(** With one rule per field, a supplied field is reported exactly when
    its text does not parse under the kind of its rule. *)
Lemma supplied_field_reported (form : gmap pystr value)
    (rules : list (pystr * bool)) (field s : pystr) (is_int : bool) :
  NoDup (map fst rules) -> (field, is_int) ∈ rules -> supplied form field s ->
  (∀ e, e ∈ omap (verdict form) rules -> e_field e ≠ field) ↔ parses is_int s.
Proof.
  intros Hnd Hr Hs. split.
  - intros Hno. destruct (decide (is_Ok (parse_as is_int s) = true)) as [H|H].
    + by apply parses_is_Ok.
    + exfalso.
      assert (∃ e, e ∈ omap (verdict form) rules ∧ e_field e = field)
        as (e & He & Hf).
      { apply reported_field. exists is_int. split; [done|].
        apply invalid_spec. exists s. split; [done|]. by rewrite parses_is_Ok. }
      by apply (Hno e).
  - intros Hp e He Hf.
    assert (∃ k, (field, k) ∈ rules ∧ invalid form (field, k) = true)
      as (k & Hk & Hi) by (apply reported_field; eauto).
    assert (k = is_int) as -> by (eapply NoDup_fst_functional; eauto).
    apply invalid_spec in Hi as (s' & Hs' & Hp'). simpl in *.
    by rewrite (supplied_functional _ _ _ _ Hs' Hs) in Hp'.
Qed.

Lemma supplied_intro (form : gmap pystr value) (field v : pystr) :
  form !! field = Some (VStr v) -> Py.strip v ≠ [] ->
  supplied form field (Py.strip v).
Proof. intros H Hs. exists (VStr v). done. Qed.

(** C4. [banjir_lama_hari] is validated as an integer: the value 5.5
    yields an error for it and the value 5 does not, whatever else the
    form holds; it is the only integer rule of the table, the other 25
    being real-valued. *)
Theorem banjir_lama_hari_is_the_integer_rule :
  List.filter snd numeric_rules = [(lit "banjir_lama_hari", true)]
  ∧ length numeric_rules = 26
  ∧ (∀ field is_int, (field, is_int) ∈ numeric_rules ->
       (is_int = true ↔ field = lit "banjir_lama_hari"))
  ∧ (∀ form : gmap pystr value,
       form !! lit "banjir_lama_hari" = Some (VStr (lit "5.5")) ->
       ∃ errs, validate_numeric_fields form numeric_rules = Ok errs
               ∧ ErrorEntry (lit "banjir_lama_hari")
                            (lit "Expected integer but got '5.5'") ∈ errs)
  ∧ (∀ form : gmap pystr value,
       form !! lit "banjir_lama_hari" = Some (VStr (lit "5")) ->
       ∃ errs, validate_numeric_fields form numeric_rules = Ok errs
               ∧ ∀ e, e ∈ errs -> e_field e ≠ lit "banjir_lama_hari")
  ∧ validate_numeric_fields {[ lit "banjir_lama_hari" := VStr (lit "5.5") ]}
      numeric_rules
    = Ok [ErrorEntry (lit "banjir_lama_hari")
                     (lit "Expected integer but got '5.5'")]
  ∧ validate_numeric_fields {[ lit "banjir_lama_hari" := VStr (lit "5") ]}
      numeric_rules
    = Ok [].
Proof.
  assert (Hin : (lit "banjir_lama_hari", true) ∈ numeric_rules).
  { apply (bool_decide_unpack _). by vm_compute. }
  split; [by vm_compute|]. split; [by vm_compute|]. split.
  { intros field is_int H.
    assert (Forall (fun r : pystr * bool =>
                      r.2 = true ↔ r.1 = lit "banjir_lama_hari") numeric_rules)
      as HF by (apply (bool_decide_unpack _); by vm_compute).
    rewrite Forall_forall in HF. by apply (HF (field, is_int)). }
  split.
  { intros form H. eexists. split; [apply validate_verdicts|].
    apply list_elem_of_omap. eexists. split; [exact Hin|].
    apply verdict_Some. exists (lit "5.5"). split; [|split].
    - by apply (supplied_intro form _ (lit "5.5")).
    - intros [n Hn]. by vm_compute in Hn.
    - done. }
  split.
  { intros form H. eexists. split; [apply validate_verdicts|].
    apply (supplied_field_reported form numeric_rules _ (lit "5") true).
    - apply numeric_rules_fields_NoDup.
    - exact Hin.
    - by apply (supplied_intro form _ (lit "5")).
    - by exists 5%Z. }
  split; by vm_compute.
Qed.

(* ===================================================================== *)
(** ** What the numeric kinds accept                                     *)
(* ===================================================================== *)

Lemma ascii_digit_cases (c : N) :
  ascii_digit c = true ->
  (c = 48 ∨ c = 49 ∨ c = 50 ∨ c = 51 ∨ c = 52
   ∨ c = 53 ∨ c = 54 ∨ c = 55 ∨ c = 56 ∨ c = 57)%N.
Proof.
  unfold ascii_digit. intros [H1 H2]%andb_prop.
  apply N.leb_le in H1, H2. lia.
Qed.

Lemma ascii_digit_facts (c : N) :
  ascii_digit c = true ->
  Py.isspace c = false ∧ Py.isspace_num c = false
  ∧ (c =? 43)%N = false ∧ (c =? 45)%N = false
  ∧ ∃ d, Py.decimal c = Some d.
Proof.
  intros H. apply ascii_digit_cases in H.
  repeat destruct H as [-> | H]; try subst c;
    (repeat split; [reflexivity..|eexists; reflexivity]).
Qed.

Lemma digits_tail_ascii (ds : pystr) :
  forallb ascii_digit ds = true ->
  ∃ vs, Py.digits_tail ds = (vs, []) ∧ length vs = length ds.
Proof.
  induction ds as [|c ds IH]; simpl.
  - by exists [].
  - intros [Hc Hds]%andb_prop.
    destruct (ascii_digit_facts c Hc) as (_ & _ & _ & _ & d & ->).
    destruct (IH Hds) as (vs & -> & Hl). exists (d :: vs). simpl. by rewrite Hl.
Qed.

Lemma digitpart_ascii (ds : pystr) :
  ds ≠ [] -> forallb ascii_digit ds = true ->
  ∃ vs, Py.digitpart ds = Some (vs, []) ∧ length vs = length ds.
Proof.
  destruct ds as [|c ds]; [done|]. simpl. intros _ [Hc Hds]%andb_prop.
  destruct (ascii_digit_facts c Hc) as (_ & _ & _ & _ & d & ->).
  destruct (digits_tail_ascii ds Hds) as (vs & -> & Hl).
  exists (d :: vs). simpl. by rewrite Hl.
Qed.

Lemma signed_digits_tight (sp : N -> bool) (sgn ds : pystr) :
  (∀ c, ascii_digit c = true -> sp c = false) ->
  sp 43%N = false -> sp 45%N = false ->
  optional_sign sgn -> ds ≠ [] -> forallb ascii_digit ds = true ->
  Py.strip_with sp (sgn ++ ds) = sgn ++ ds.
Proof.
  intros Hd Hp Hm Hs Hne Hds. apply strip_with_tight.
  - intros c r E. destruct Hs as [-> | [-> | ->]]; simpl in E.
    + subst ds. simpl in Hds. apply andb_prop in Hds as [Hc _]. auto.
    + by injection E as <- _.
    + by injection E as <- _.
  - intros c r E. rewrite rev_app_distr in E.
    destruct (rev ds) as [|c' r'] eqn:Er.
    + apply (f_equal (@rev N)) in Er. rewrite rev_involutive in Er. done.
    + simpl in E. injection E as <- _. apply Hd.
      assert (In c' (rev ds)) as Hin by (rewrite Er; by left).
      apply in_rev in Hin. rewrite forallb_forall in Hds. auto.
Qed.

(** [int()] accepts every run of ASCII digits within the length limit,
    with or without a sign. *)
Lemma int_accepts_signed_digits (sgn ds : pystr) :
  optional_sign sgn -> ds ≠ [] -> forallb ascii_digit ds = true ->
  length ds ≤ Py.int_max_str_digits ->
  ∃ n, Py.int (sgn ++ ds) = Ok n.
Proof.
  intros Hs Hne Hds Hlen. unfold Py.int.
  rewrite (signed_digits_tight Py.isspace_num sgn ds); try done.
  2: { intros c Hc. apply (ascii_digit_facts c Hc). }
  destruct (digitpart_ascii ds Hne Hds) as (vs & Hvs & Hl).
  assert (∃ neg, Py.sign (sgn ++ ds) = (neg, ds)) as [neg ->].
  { destruct Hs as [-> | [-> | ->]]; [|by exists false|by exists true].
    destruct ds as [|c r]; [done|]. simpl in *.
    apply andb_prop in Hds as [Hc _].
    destruct (ascii_digit_facts c Hc) as (_ & _ & -> & -> & _). by exists false. }
  rewrite Hvs.
  assert ((Py.int_max_str_digits <? length vs)%nat = false) as ->.
  { apply Nat.ltb_ge. lia. }
  eauto.
Qed.

(** C10. For a real-valued rule the validator accepts exactly the texts
    that [float()] parses after trimming, so nan, inf, 1e5 and +3. pass;
    the integer rule accepts exactly what [int()] parses after trimming,
    which includes every run of digits with white space around it, a
    sign before it, or both. *)
Theorem numeric_kinds_accept_what_python_parses :
  (∀ (form : gmap pystr value) (field s : pystr),
      (field, false) ∈ numeric_rules -> supplied form field s ->
      ∃ errs, validate_numeric_fields form numeric_rules = Ok errs
              ∧ ((∀ e, e ∈ errs -> e_field e ≠ field) ↔ ∃ x, Py.float s = Ok x))
  ∧ (∀ (form : gmap pystr value) (s : pystr),
      supplied form (lit "banjir_lama_hari") s ->
      ∃ errs, validate_numeric_fields form numeric_rules = Ok errs
              ∧ ((∀ e, e ∈ errs -> e_field e ≠ lit "banjir_lama_hari")
                 ↔ ∃ n, Py.int s = Ok n))
  ∧ Forall (fun text =>
              validate_numeric_fields {[ lit "elevasi_lahan" := VStr (lit text) ]}
                numeric_rules = Ok [])
           ["nan"; "inf"; "1e5"; "+3."]
  ∧ validate_numeric_fields {[ lit "banjir_lama_hari" := VStr (lit " +5 ") ]}
      numeric_rules = Ok []
  ∧ (∀ (form : gmap pystr value) (l sgn ds r : pystr),
      forallb Py.isspace l = true -> forallb Py.isspace r = true ->
      optional_sign sgn -> ds ≠ [] -> forallb ascii_digit ds = true ->
      length ds ≤ Py.int_max_str_digits ->
      form !! lit "banjir_lama_hari" = Some (VStr (l ++ (sgn ++ ds) ++ r)) ->
      ∃ errs, validate_numeric_fields form numeric_rules = Ok errs
              ∧ ∀ e, e ∈ errs -> e_field e ≠ lit "banjir_lama_hari").
Proof.
  assert (Hin : (lit "banjir_lama_hari", true) ∈ numeric_rules).
  { apply (bool_decide_unpack _). by vm_compute. }
  assert (Hint : ∀ (form : gmap pystr value) (s : pystr),
      supplied form (lit "banjir_lama_hari") s ->
      ∃ errs, validate_numeric_fields form numeric_rules = Ok errs
              ∧ ((∀ e, e ∈ errs -> e_field e ≠ lit "banjir_lama_hari")
                 ↔ ∃ n, Py.int s = Ok n)).
  { intros form s Hs. eexists. split; [apply validate_verdicts|].
    by apply (supplied_field_reported form numeric_rules _ s true
                numeric_rules_fields_NoDup). }
  split.
  { intros form field s Hr Hs. eexists. split; [apply validate_verdicts|].
    by apply (supplied_field_reported form numeric_rules field s false
                numeric_rules_fields_NoDup). }
  split; [exact Hint|].
  split; [repeat constructor; by vm_compute|].
  split; [by vm_compute|].
  intros form l sgn ds r Hl Hr Hs Hne Hds Hlen Hform.
  assert (Py.strip (l ++ (sgn ++ ds) ++ r) = sgn ++ ds) as Hstrip.
  { unfold Py.strip. rewrite strip_with_padding by done.
    apply signed_digits_tight; try done.
    intros c Hc. apply (ascii_digit_facts c Hc). }
  assert (sgn ++ ds ≠ []) as Hne'.
  { intros E. apply app_eq_nil in E as [_ ?]. done. }
  destruct (Hint form (sgn ++ ds)) as (errs & Hv & Hiff).
  { rewrite <- Hstrip. apply supplied_intro; [done|]. by rewrite Hstrip. }
  exists errs. split; [done|]. apply Hiff.
  by apply int_accepts_signed_digits.
Qed.

(* ===================================================================== *)
(** ** The image inserter                                                *)
(* ===================================================================== *)

Lemma cleared_runs (ps : list paragraph) :
  concat (map p_runs (map clear ps)) = [].
Proof. induction ps as [|p ps IH]; simpl; done. Qed.

Lemma cleared_text (ps : list paragraph) :
  map paragraph_text (map clear ps) = replicate (length ps) [].
Proof. induction ps as [|p ps IH]; simpl; [done|]. by rewrite IH. Qed.

Lemma join_lines_blank (s : pystr) (n : nat) :
  join_lines (s :: replicate n []) = s ++ replicate n 10%N.
Proof.
  revert s. induction n as [|n IH]; intros s.
  - simpl. by rewrite app_nil_r.
  - change (join_lines (s :: replicate (S n) []))
      with (s ++ 10%N :: join_lines ([] :: replicate n [])).
    cbn [replicate]. do 2 f_equal. exact (IH []).
Qed.

(** The cell the inserter leaves when it writes [runs] into the first
    paragraph. *)
Lemma written_cell_content (c : Docx.cell) (runs : list run) :
  let c' := Cell (Paragraph (Some CENTER) runs) (map clear (c_rest c))
                 (c_vertical c) (c_span c) in
  cell_runs c' = runs
  ∧ cell_text c' = concat (map r_text runs) ++ replicate (length (c_rest c)) 10%N.
Proof.
  simpl. split.
  - unfold cell_runs, paragraphs. simpl. by rewrite cleared_runs, app_nil_r.
  - unfold cell_text, paragraphs. simpl.
    rewrite cleared_text.
    apply (join_lines_blank (paragraph_text (Paragraph (Some CENTER) runs))).
Qed.

Lemma insert_absent (w : world) (c : Docx.cell) (mw : Z) (tr : list event) :
  _insert_image_in_cell w c None mw tr
  = (Ok (Cell (Paragraph (Some CENTER) [no_image_run]) (map clear (c_rest c))
              (c_vertical c) (c_span c)), tr).
Proof. reflexivity. Qed.

Lemma insert_falsy (w : world) (c : Docx.cell) (src : option image_arg)
    (mw : Z) (tr : list event) :
  truthy src = false ->
  _insert_image_in_cell w c src mw tr = _insert_image_in_cell w c None mw tr.
Proof.
  intros H. destruct src as [x|]; [|done].
  unfold _insert_image_in_cell. by rewrite H.
Qed.

Lemma insert_failed (w : world) (c : Docx.cell) (x : image_arg) (e : exn)
    (mw : Z) (tr : list event) :
  truthy (Some x) = true -> w_add_picture w (picture_source x) = Raise e ->
  _insert_image_in_cell w c (Some x) mw tr
  = (Ok (Cell (Paragraph (Some CENTER) [new_run []; error_run])
              (map clear (c_rest c)) (c_vertical c) (c_span c)),
     tr ++ [EvAddPicture (picture_source x)]).
Proof.
  intros Ht Hw. unfold _insert_image_in_cell. rewrite Ht.
  unfold try_except, add_picture, mbind, M_bind, bind, emit, lift.
  by rewrite Hw.
Qed.

Lemma insert_embedded (w : world) (c : Docx.cell) (x : image_arg)
    (mw : Z) (tr : list event) :
  truthy (Some x) = true -> w_add_picture w (picture_source x) = Ok tt ->
  _insert_image_in_cell w c (Some x) mw tr
  = (Ok (Cell (Paragraph (Some CENTER)
                 [with_picture (new_run []) (Picture (picture_source x) mw)])
              (map clear (c_rest c)) (c_vertical c) (c_span c)),
     tr ++ [EvAddPicture (picture_source x)]).
Proof.
  intros Ht Hw. unfold _insert_image_in_cell. rewrite Ht.
  unfold try_except, add_picture, mbind, M_bind, bind, emit, lift.
  by rewrite Hw.
Qed.

(** The inserter ends normally for every cell, source and library
    behaviour. *)
Lemma insert_returns (w : world) (c : Docx.cell) (src : option image_arg)
    (mw : Z) :
  returns (_insert_image_in_cell w c src mw).
Proof.
  intros tr. destruct (truthy src) eqn:Ht.
  - destruct src as [x|]; [|done].
    destruct (w_add_picture w (picture_source x)) as [[]|e] eqn:Hw.
    + rewrite insert_embedded by done. eauto.
    + rewrite (insert_failed _ _ _ e) by done. eauto.
  - rewrite insert_falsy, insert_absent by done. eauto.
Qed.

(** C3. With no source the cell is left holding the single italic
    10-point run "(no image)", every earlier run of the cell being
    cleared, so that text is the whole text of the cell (of its runs in
    general and of [cell.text] for a one-paragraph cell, the only kind
    a new table has); when embedding the given bytes or path raises,
    whatever the exception, the cell instead holds the italic 9-point
    run "(error inserting image)" and no picture; in every case the
    inserter returns normally, so no image problem reaches the caller. *)
Theorem insert_image_placeholders
    (w : world) (c : Docx.cell) (mw : Z) (tr : list event) :
  (∃ c', _insert_image_in_cell w c None mw tr = (Ok c', tr)
         ∧ cell_runs c' = [no_image_run]
         ∧ cell_runs_text c' = lit "(no image)"
         ∧ r_italic no_image_run = Some true
         ∧ r_font_size no_image_run = Some 10%Z
         ∧ (c_rest c = [] -> cell_text c' = lit "(no image)"))
  ∧ (∀ (x : image_arg) (e : exn),
       truthy (Some x) = true ->
       w_add_picture w (picture_source x) = Raise e ->
       ∃ c', _insert_image_in_cell w c (Some x) mw tr
             = (Ok c', tr ++ [EvAddPicture (picture_source x)])
             ∧ cell_runs c' = [new_run []; error_run]
             ∧ cell_runs_text c' = lit "(error inserting image)"
             ∧ cell_pictures c' = []
             ∧ r_italic error_run = Some true
             ∧ r_font_size error_run = Some 9%Z
             ∧ (c_rest c = [] -> cell_text c' = lit "(error inserting image)"))
  ∧ (∀ src : option image_arg,
       ∃ c' tr', _insert_image_in_cell w c src mw tr = (Ok c', tr')).
Proof.
  split; [|split].
  - eexists. split; [apply insert_absent|].
    destruct (written_cell_content c [no_image_run]) as [Hr Ht].
    unfold cell_runs_text. rewrite Hr.
    split; [done|]. split; [done|]. split; [done|]. split; [done|].
    intros Hrest. rewrite Ht, Hrest. done.
  - intros x e Hx Hw. eexists. split; [by apply (insert_failed _ _ _ e)|].
    destruct (written_cell_content c [new_run []; error_run]) as [Hr Ht].
    unfold cell_runs_text, cell_pictures. rewrite Hr.
    split; [done|]. split; [done|]. split; [done|].
    split; [done|]. split; [done|].
    intros Hrest. rewrite Ht, Hrest. done.
  - intros src. apply insert_returns.
Qed.

(** C8. Every source that Python counts as false is treated as absent:
    empty bytes and an empty path give the same cell as [None], holding
    "(no image)", without any call of [add_picture] (nothing is logged
    and the library's behaviour does not matter); in particular the
    empty content read from a zero-byte upload. *)
Theorem falsy_source_is_no_image
    (w : world) (c : Docx.cell) (mw : Z) (tr : list event) :
  _insert_image_in_cell w c (Some (ImgBytes [])) mw tr
  = _insert_image_in_cell w c None mw tr
  ∧ _insert_image_in_cell w c (Some (ImgPath [])) mw tr
    = _insert_image_in_cell w c None mw tr
  ∧ (∀ src : option image_arg,
       truthy src = false ->
       ∃ c', _insert_image_in_cell w c src mw tr = (Ok c', tr)
             ∧ cell_runs c' = [no_image_run]
             ∧ cell_runs_text c' = lit "(no image)"
             ∧ ∀ w' : world,
                 _insert_image_in_cell w' c src mw tr = (Ok c', tr))
  ∧ (∀ src : option image_arg,
       truthy src = false ↔
       src = None ∨ src = Some (ImgBytes []) ∨ src = Some (ImgPath []))
  ∧ (∀ (form : gmap pystr value) (images : gmap pystr (option image_arg))
       (fname : pystr) (u : upload),
       dict_get form fname = VUpload u -> up_read u = Ok [] ->
       ∃ images',
         read_photo form images fname tr = (Ok images', tr ++ [EvRead u])
         ∧ images_get images' fname = Some (ImgBytes [])
         ∧ _insert_image_in_cell w c (images_get images' fname) mw tr
           = _insert_image_in_cell w c None mw tr).
Proof.
  split; [done|]. split; [done|]. split; [|split].
  - intros src Hs. eexists. split; [by rewrite insert_falsy, insert_absent|].
    destruct (written_cell_content c [no_image_run]) as [Hr _].
    unfold cell_runs_text. rewrite Hr.
    split; [done|]. split; [done|].
    intros w'. by rewrite insert_falsy, insert_absent.
  - intros src. destruct src as [[b|p]|]; simpl.
    + rewrite negb_false_iff, bool_decide_eq_true. split.
      * intros ->. auto.
      * intros [H | [H | H]]; by simplify_eq.
    + rewrite negb_false_iff, bool_decide_eq_true. split.
      * intros ->. auto.
      * intros [H | [H | H]]; by simplify_eq.
    + split; auto.
  - intros form images fname u Hu Hr. eexists. split.
    + unfold read_photo. rewrite Hu.
      unfold try_except, read, mbind, M_bind, bind, emit, lift. by rewrite Hr.
    + unfold images_get. rewrite lookup_insert_eq. done.
Qed.

(* ===================================================================== *)
(** ** The photo builders                                                *)
(* ===================================================================== *)

Lemma ret_returns {A} (a : A) : returns (mret a).
Proof. intros tr. by exists a, tr. Qed.

Lemma bind_returns {A B} (m : M A) (k : A -> M B) :
  returns m -> (∀ a, returns (k a)) -> returns (m ≫= k).
Proof.
  intros Hm Hk tr. destruct (Hm tr) as (a & tr' & E).
  destruct (Hk a tr') as (b & tr'' & E').
  exists b, tr''. unfold mbind, M_bind, bind. by rewrite E.
Qed.

Lemma for_each_returns {A S} (l : list A) (body : S -> A -> M S) (s : S) :
  (∀ s a, returns (body s a)) -> returns (for_each l body s).
Proof.
  intros Hb. revert s. induction l as [|a l IH]; intros s; simpl.
  - apply ret_returns.
  - apply bind_returns; [apply Hb|]. intros s'. apply IH.
Qed.

Lemma insert_pair_returns (w : world) (row : list Docx.cell)
    (left right : option image_arg) (mw : Z) :
  returns (insert_pair w row left right mw).
Proof.
  unfold insert_pair.
  do 2 (apply bind_returns; [apply insert_returns|intros ?]).
  apply ret_returns.
Qed.

Lemma photo_item_returns (w : world) (images : gmap pystr (option image_arg))
    (mw : Z) (title key1 key2 : string) (t : table) :
  returns (photo_item w images mw title key1 key2 t).
Proof.
  unfold photo_item, image_row.
  apply bind_returns; [apply insert_pair_returns|]. intros ?. apply ret_returns.
Qed.

Lemma two_image_item_returns (w : world)
    (images : gmap pystr (option image_arg)) (mw : Z)
    (title key1 key2 : string) (doc : document) :
  returns (two_image_item w images mw title key1 key2 doc).
Proof.
  unfold two_image_item.
  apply bind_returns; [apply insert_pair_returns|]. intros ?. apply ret_returns.
Qed.

Lemma tambahan_pair_returns (w : world)
    (images : gmap pystr (option image_arg)) (mw : Z)
    (doc : document) (pair : list pystr) :
  returns (tambahan_pair w images mw doc pair).
Proof.
  unfold tambahan_pair.
  apply bind_returns; [apply insert_returns|]. intros ?.
  apply bind_returns; [|intros ?; apply ret_returns].
  destruct (_ <? _)%nat; [destruct (bool_decide _)|]; apply insert_returns.
Qed.

(** Whatever the images are and whatever the library does with them,
    both photo builders return a document. *)
Lemma add_foto_lapangan_section_returns (w : world) (doc : document)
    (images : gmap pystr (option image_arg)) (mw : Z) :
  returns (add_foto_lapangan_section w doc images mw).
Proof.
  unfold add_foto_lapangan_section.
  do 3 (apply bind_returns; [apply photo_item_returns|intros ?]).
  apply bind_returns; [|intros ?; apply ret_returns].
  unfold image_row. apply insert_pair_returns.
Qed.

Lemma add_additional_photo_sections_returns (w : world) (doc : document)
    (images : gmap pystr (option image_arg)) (mw : Z) :
  returns (add_additional_photo_sections w doc images mw).
Proof.
  unfold add_additional_photo_sections.
  do 3 (apply bind_returns; [apply insert_returns|intros ?]).
  do 2 (apply bind_returns; [apply two_image_item_returns|intros ?]).
  apply bind_returns; [apply insert_pair_returns|intros ?].
  do 3 (apply bind_returns; [apply two_image_item_returns|intros ?]).
  apply for_each_returns. intros ? ?. apply tambahan_pair_returns.
Qed.

(* ===================================================================== *)
(** ** The endpoints                                                     *)
(* ===================================================================== *)






(** *** The sample endpoint *)

Lemma hex_digit_is_hex (d : N) :
  (d < 16)%N -> is_hex_digit (hex_digit d) = true.
Proof.
  intros H.
  assert (d = 0 ∨ d = 1 ∨ d = 2 ∨ d = 3 ∨ d = 4 ∨ d = 5 ∨ d = 6 ∨ d = 7
          ∨ d = 8 ∨ d = 9 ∨ d = 10 ∨ d = 11 ∨ d = 12 ∨ d = 13 ∨ d = 14
          ∨ d = 15)%N as Hd by lia.
  repeat destruct Hd as [-> | Hd]; try subst d; reflexivity.
Qed.

(** [uuid4().hex] is 32 lower-case hexadecimal digits. *)
Lemma uuid_hex_shape (v : N) :
  length (uuid_hex v) = 32 ∧ forallb is_hex_digit (uuid_hex v) = true.
Proof.
  unfold uuid_hex. split.
  - by rewrite length_map, length_seq.
  - apply forallb_forall. intros c Hc. apply in_map_iff in Hc as (i & <- & _).
    apply hex_digit_is_hex. by apply N.mod_lt.
Qed.

Lemma for_each_calls_defined (env : gmap string builder)
    (calls : list (string * list (string * kwarg))) (doc : document)
    (tr : list event) :
  builders_defined env calls ->
  ∃ doc', for_each calls (call_global env) doc tr = (Ok doc', tr).
Proof.
  intros H. revert doc. induction H as [|call calls (f & Hf & Hok) _ IH];
    intros doc; simpl.
  - by exists doc.
  - destruct (Hok doc call.2) as [doc1 E]. destruct (IH doc1) as [doc' E'].
    exists doc'. unfold mbind, M_bind, bind, call_global. rewrite Hf.
    unfold lift. by rewrite E.
Qed.

(** With no images, the photo builders touch nothing outside the
    document. *)
Lemma photo_sections_without_images (w : world) (doc : document)
    (tr : list event) :
  ∃ doc',
    (doc1 ← add_foto_lapangan_section w doc ∅ default_max_image_width;
     add_additional_photo_sections w doc1 ∅ default_max_image_width) tr
    = (Ok doc', tr).
Proof. eexists. vm_compute. reflexivity. Qed.

Lemma save_and_respond_ok (w : world) (doc : document) (prefix base : pystr)
    (tr : list event) :
  w_tempfile w = Ok base -> w_save w (base ++ lit ".docx") = Ok tt ->
  save_and_respond w doc prefix tr
  = (Ok (FileResponse (base ++ lit ".docx") docx_media_type
           (prefix ++ uuid_hex (w_uuid4 w) ++ lit ".docx")),
     tr ++ [EvTempFile (base ++ lit ".docx");
            EvSave (base ++ lit ".docx") doc;
            EvAddTask (base ++ lit ".docx")]).
Proof.
  intros Ht Hs. unfold save_and_respond, NamedTemporaryFile, save.
  unfold mbind, M_bind, bind, lift, emit, mret, M_ret, ret.
  rewrite Ht, Hs. by rewrite <- !app_assoc.
Qed.

(** Once the section builders are supplied and the file system
    co-operates, the sample endpoint answers 200 with a file named
    [tallysheet_sample_<32 hex digits>.docx], needs no library call for
    images, and schedules the removal of its temporary file. *)
Lemma generate_sample_with_builders (env : gmap string builder) (w : world)
    (base : pystr) (tr : list event) :
  builders_defined env sample_calls ->
  w_tempfile w = Ok base -> w_save w (base ++ lit ".docx") = Ok tt ->
  ∃ doc,
    generate_sample env w tr
    = (Ok (FileResponse (base ++ lit ".docx") docx_media_type
             (lit "tallysheet_sample_" ++ uuid_hex (w_uuid4 w) ++ lit ".docx")),
       tr ++ [EvDocument; EvTempFile (base ++ lit ".docx");
              EvSave (base ++ lit ".docx") doc;
              EvAddTask (base ++ lit ".docx")])
    ∧ http_status (generate_sample env w tr).1 = 200%Z.
Proof.
  intros Hb Ht Hs.
  destruct (for_each_calls_defined env sample_calls
              (Document (Some (Margins Inches_1 Inches_1 Inches_1_25 Inches_1_25)) [])
              (tr ++ [EvDocument]) Hb) as [doc1 E1].
  destruct (photo_sections_without_images w doc1 (tr ++ [EvDocument]))
    as [doc2 E2].
  exists doc2.
  assert (generate_sample env w tr
          = save_and_respond w doc2 (lit "tallysheet_sample_") (tr ++ [EvDocument]))
    as E.
  { unfold generate_sample, new_document.
    unfold mbind, M_bind, bind, emit, mret, M_ret, ret in *.
    rewrite E1.
    destruct (add_foto_lapangan_section w doc1 ∅ default_max_image_width
                (tr ++ [EvDocument])) as [[d|e] tr1]; [|discriminate E2].
    rewrite E2. reflexivity. }
  rewrite (save_and_respond_ok w doc2 _ base _ Ht Hs) in E.
  rewrite <- app_assoc in E. rewrite E. split; reflexivity.
Qed.

(** A run of the sample endpoint with eighteen builders that add
    nothing. *)
Lemma generate_sample_with_builders_example :
  let env : gmap string builder :=
    list_to_map (map (fun call => (call.1, fun doc _ => Ok doc)) sample_calls) in
  let w := World (fun _ => Raise OSError) (Ok (lit "/tmp/tmpq1w2e3"))
                 (fun _ => Ok tt) 0x1f2e3d4c5b6a79881726354453627180 in
  (generate_sample env w []).1
  = Ok (FileResponse (lit "/tmp/tmpq1w2e3.docx") docx_media_type
          (lit "tallysheet_sample_1f2e3d4c5b6a79881726354453627180.docx")).
Proof. by vm_compute. Qed.


(** C7. The module as written defines none of the section builders the
    sample endpoint calls: every run of the endpoint constructs the
    document, raises [NameError] at the first builder call,
    [add_formulir_tallysheet], and the client gets a server error; no
    file is created or saved. (It performs no validation and takes no
    request input.) *)
Theorem generate_sample_as_written (w : world) (tr : list event) :
  generate_sample module_builders w tr
  = (Raise (NameError (lit "add_formulir_tallysheet")), tr ++ [EvDocument])
  ∧ http_status (generate_sample module_builders w tr).1 = 500%Z
  ∧ module_builders !! "add_formulir_tallysheet" = None
  ∧ Forall (fun call => module_builders !! call.1 = None) sample_calls.
Proof.
  split; [reflexivity|]. split; [reflexivity|]. split; [reflexivity|].
  apply Forall_forall. intros call _. apply lookup_empty.
Qed.

(* ===================================================================== *)
(** ** Further properties of the validator and the formatting helpers    *)
(* ===================================================================== *)

(** The verdict on a rule looks at the form only through the value bound
    to the rule's field. *)
Lemma verdict_same_value (form1 form2 : gmap pystr value) (rule : pystr * bool) :
  is_unset (dict_get form1 rule.1) = is_unset (dict_get form2 rule.1) ->
  Py.strip (str (dict_get form1 rule.1)) = Py.strip (str (dict_get form2 rule.1)) ->
  verdict form1 rule = verdict form2 rule.
Proof. intros H1 H2. unfold verdict. by rewrite H1, H2. Qed.

Lemma validate_same_values (form1 form2 : gmap pystr value)
    (rules : list (pystr * bool)) :
  (∀ rule, rule ∈ rules ->
     is_unset (dict_get form1 rule.1) = is_unset (dict_get form2 rule.1)
     ∧ Py.strip (str (dict_get form1 rule.1))
       = Py.strip (str (dict_get form2 rule.1))) ->
  validate_numeric_fields form1 rules = validate_numeric_fields form2 rules.
Proof.
  intros H. rewrite !validate_verdicts. f_equal.
  induction rules as [|rule rules IH]; [done|].
  cbn [omap list_omap].
  rewrite (verdict_same_value form1 form2 rule) by (apply H; by left).
  rewrite IH; [done|]. intros r Hr. apply H. by right.
Qed.

(** X1. Keys that no rule names do not matter to the validator: binding
    such a key, rebinding it or removing it leaves the result as it is. *)
Theorem validate_ignores_other_keys (form : gmap pystr value)
    (rules : list (pystr * bool)) (key : pystr) (v : value) :
  key ∉ map fst rules ->
  validate_numeric_fields (<[key := v]> form) rules
  = validate_numeric_fields form rules
  ∧ validate_numeric_fields (delete key form) rules
    = validate_numeric_fields form rules.
Proof.
  intros Hk.
  assert (Hne : ∀ rule, rule ∈ rules -> rule.1 ≠ key).
  { intros rule Hr E. apply Hk. rewrite <- E.
    by apply (list_elem_of_fmap_2 fst). }
  split; apply validate_same_values; intros rule Hr; unfold dict_get.
  - by rewrite lookup_insert_ne by (symmetry; by apply Hne).
  - by rewrite lookup_delete_ne by (symmetry; by apply Hne).
Qed.

Lemma validate_ignores_other_keys_witness :
  validate_numeric_fields
    (<[lit "latitude_arah" := VStr (lit "north")]> {[ lit "genangan" := VStr (lit "x") ]})
    numeric_rules
  = validate_numeric_fields {[ lit "genangan" := VStr (lit "x") ]} numeric_rules
  ∧ validate_numeric_fields
      (delete (lit "latitude_arah") {[ lit "genangan" := VStr (lit "x") ]})
      numeric_rules
    = validate_numeric_fields {[ lit "genangan" := VStr (lit "x") ]} numeric_rules.
Proof.
  apply (validate_ignores_other_keys _ numeric_rules).
  apply (bool_decide_unpack _). by vm_compute.
Defined.

(** X2. White space around a value changes neither the verdict nor the
    message: the validator's result for a text padded with white space
    on either side is its result for the text itself. *)
Theorem validate_ignores_padding (form : gmap pystr value)
    (rules : list (pystr * bool)) (field l s r : pystr) :
  forallb Py.isspace l = true -> forallb Py.isspace r = true ->
  validate_numeric_fields (<[field := VStr (l ++ s ++ r)]> form) rules
  = validate_numeric_fields (<[field := VStr s]> form) rules.
Proof.
  intros Hl Hr. apply validate_same_values. intros rule _. unfold dict_get.
  destruct (decide (rule.1 = field)) as [->|Hne].
  - rewrite !lookup_insert_eq. simpl. unfold Py.strip.
    by rewrite strip_with_padding.
  - by rewrite !lookup_insert_ne by done.
Qed.

Lemma validate_ignores_padding_witness :
  validate_numeric_fields
    (<[lit "genangan" := VStr (lit "  " ++ lit "1x" ++ [0x3000%N; 9%N])]> ∅)
    numeric_rules
  = validate_numeric_fields (<[lit "genangan" := VStr (lit "1x")]> ∅) numeric_rules.
Proof. apply validate_ignores_padding; by vm_compute. Defined.



Lemma replicate_underscore_strip (n : nat) :
  Py.strip (replicate n Py.underscore) = replicate n Py.underscore.
Proof.
  apply strip_with_tight.
  - intros c r E. destruct n; [done|]. by injection E as <- _.
  - intros c r E.
    assert (In c (replicate n Py.underscore)) as Hin.
    { apply in_rev. rewrite E. by left. }
    apply list_elem_of_In, elem_of_replicate in Hin as [-> _]. done.
Qed.

(** X4. With a placeholder length of at least one, what
    [format_input_text] returns is never blank: it counts as set for
    [format_checkbox_as_X], and formatting it again returns it
    unchanged. *)
Theorem format_input_text_never_blank (v : value) (n : Z) :
  (1 <= n)%Z ->
  Py.strip (format_input_text v n) ≠ []
  ∧ format_checkbox_as_X (VStr (format_input_text v n)) = lit "X"
  ∧ format_input_text (VStr (format_input_text v n)) n = format_input_text v n.
Proof.
  intros Hn.
  assert (Hs : Py.strip (format_input_text v n) ≠ []).
  { unfold format_input_text. destruct (is_unset v) eqn:E.
    - unfold Py.repeat_char. rewrite replicate_underscore_strip.
      destruct (Z.to_nat n) eqn:En; [lia|done].
    - by apply is_unset_false in E as [_ ?]. }
  assert (Hset : is_unset (VStr (format_input_text v n)) = false).
  { apply is_unset_false. split; [apply VStr_not_None|exact Hs]. }
  split; [exact Hs|]. split.
  - unfold format_checkbox_as_X. by rewrite Hset.
  - unfold format_input_text at 1. by rewrite Hset.
Qed.

Lemma format_input_text_never_blank_witness :
  Py.strip (format_input_text VNone 6) ≠ []
  ∧ format_checkbox_as_X (VStr (format_input_text VNone 6)) = lit "X"
  ∧ format_input_text (VStr (format_input_text VNone 6)) 6
    = format_input_text VNone 6.
Proof. apply format_input_text_never_blank. lia. Defined.

(* ===================================================================== *)
(** ** The inserter and the photo builders, step by step                 *)
(* ===================================================================== *)

Lemma insert_produces_cell (w : world) (c : Docx.cell)
    (src : option image_arg) (mw : Z) (tr : list event) :
  _insert_image_in_cell w c src mw tr
  = (Ok (inserted w c src mw), tr ++ attempt src).
Proof.
  unfold inserted, written, attempt. destruct src as [x|].
  - destruct (truthy (Some x)) eqn:Ht.
    + destruct (w_add_picture w (picture_source x)) as [[]|e] eqn:Hw.
      * by rewrite insert_embedded.
      * by rewrite (insert_failed _ _ _ e).
    + rewrite insert_falsy, insert_absent by done. by rewrite app_nil_r.
  - rewrite insert_absent. by rewrite app_nil_r.
Qed.

Lemma produces_ret {A} (a : A) : produces (mret a) [] (fun v => v = a).
Proof. intros tr. exists a. unfold mret, M_ret, ret. by rewrite app_nil_r. Qed.

Lemma produces_bind {A B} (m : M A) (k : A -> M B) (evs1 evs2 : list event)
    (P : A -> Prop) (Q : B -> Prop) :
  produces m evs1 P -> (∀ a, P a -> produces (k a) evs2 Q) ->
  produces (m ≫= k) (evs1 ++ evs2) Q.
Proof.
  intros Hm Hk tr. destruct (Hm tr) as (a & E & Ha).
  destruct (Hk a Ha (tr ++ evs1)) as (b & E' & Hb).
  exists b. unfold mbind, M_bind, bind. rewrite E, E'. by rewrite app_assoc.
Qed.

Lemma produces_events {A} (m : M A) (evs evs' : list event) (P : A -> Prop) :
  produces m evs P -> evs = evs' -> produces m evs' P.
Proof. by intros H <-. Qed.

Lemma produces_post {A} (m : M A) (evs : list event) (P Q : A -> Prop) :
  produces m evs P -> (∀ a, P a -> Q a) -> produces m evs Q.
Proof.
  intros H HPQ tr. destruct (H tr) as (a & E & Ha). exists a. auto.
Qed.

Lemma insert_produces (w : world) (c : Docx.cell) (src : option image_arg)
    (mw : Z) :
  produces (_insert_image_in_cell w c src mw) (attempt src)
           (fun c' => c' = inserted w c src mw).
Proof. intros tr. eexists. split; [apply insert_produces_cell|done]. Qed.

Ltac produces_run :=
  lazymatch goal with
  | |- produces (_insert_image_in_cell _ _ _ _) _ _ => apply insert_produces
  | |- produces (mret _) _ _ => apply produces_ret
  | |- produces (mbind _ _) _ _ =>
      eapply produces_bind; [produces_run|intros ? ->; cbv beta; produces_run]
  end.

Lemma insert_pair_produces (w : world) (c0 c1 : Docx.cell)
    (l r : option image_arg) (mw : Z) :
  produces (insert_pair w [c0; c1] l r mw) (attempt l ++ attempt r)
           (fun row => row = [inserted w c0 l mw; inserted w c1 r mw]).
Proof.
  eapply produces_events.
  - unfold insert_pair. produces_run.
  - by rewrite app_nil_r.
Qed.

Lemma photo_item_produces (w : world) (images : gmap pystr (option image_arg))
    (mw : Z) (title key1 key2 : string) (t : table) :
  length (t_widths t) = 2 ->
  produces (photo_item w images mw title key1 key2 t)
    (attempt (images_get images (lit key1))
     ++ attempt (images_get images (lit key2)))
    (fun t' =>
       t' = append_row [image_cell w (Some TOP) (images_get images (lit key1)) mw;
                        image_cell w (Some TOP) (images_get images (lit key2)) mw]
                       (append_row (title_row t (lit title)) t)).
Proof.
  intros H. unfold photo_item, image_row, new_row. simpl t_widths. rewrite H.
  cbv zeta. eapply produces_events.
  - eapply produces_bind.
    + apply (insert_pair_produces w (set_vertical TOP new_cell)
                                    (set_vertical TOP new_cell)).
    + intros ? ->. cbv beta. apply produces_ret.
  - by rewrite app_nil_r.
Qed.

Lemma two_image_item_produces (w : world)
    (images : gmap pystr (option image_arg)) (mw : Z)
    (title key1 key2 : string) (doc : document) :
  produces (two_image_item w images mw title key1 key2 doc)
    (attempt (images_get images (lit key1))
     ++ attempt (images_get images (lit key2)))
    (fun doc' =>
       doc' = append_block (BParagraph empty_paragraph)
                (append_block
                   (BTable (set_rows
                              [[image_cell w None (images_get images (lit key1)) mw;
                                image_cell w None (images_get images (lit key2)) mw]]
                              (two_column_table 1)))
                   (item_title title doc))).
Proof.
  unfold two_image_item. cbv zeta. eapply produces_events.
  - eapply produces_bind.
    + apply (insert_pair_produces w new_cell new_cell).
    + intros ? ->. cbv beta. apply produces_ret.
  - by rewrite app_nil_r.
Qed.

Lemma tambahan_pair_produces (w : world)
    (images : gmap pystr (option image_arg)) (mw : Z) (doc : document)
    (k1 k2 : pystr) :
  k2 ≠ [] ->
  produces (tambahan_pair w images mw doc [k1; k2])
    (attempt (images_get images k1) ++ attempt (images_get images k2))
    (fun doc' =>
       doc' = append_block (BParagraph empty_paragraph)
                (append_block
                   (BTable (set_rows
                              [[image_cell w None (images_get images k1) mw;
                                image_cell w None (images_get images k2) mw]]
                              (two_column_table 1)))
                   doc)).
Proof.
  intros Hk. unfold tambahan_pair. cbv zeta.
  change (1 <? length [k1; k2])%nat with true. cbv iota.
  change ([k1; k2] !!! 1%nat) with k2. change ([k1; k2] !!! 0%nat) with k1.
  rewrite (bool_decide_eq_false_2 _ Hk).
  eapply produces_events.
  - produces_run.
  - by rewrite app_nil_r.
Qed.

(** *** More on the inserter *)



Lemma inserted_twice (w : world) (c : Docx.cell) (src1 src2 : option image_arg)
    (mw1 mw2 : Z) :
  inserted w (inserted w c src1 mw1) src2 mw2 = inserted w c src2 mw2.
Proof.
  unfold inserted. simpl. f_equal.
  induction (c_rest c) as [|p ps IH]; simpl; [done|]. by rewrite IH.
Qed.

(** X6. The inserter keeps the frame of the cell and nothing of its
    content: span, vertical alignment and the number of paragraphs
    stay, as does the alignment of every paragraph but the first, which
    is centred; all earlier runs are gone. So inserting into a cell the
    inserter has filled before gives what inserting into the original
    cell gives. Each call logs one library call at most. *)
Theorem insert_image_overwrites (w : world) (c : Docx.cell)
    (src1 src2 : option image_arg) (mw1 mw2 : Z) (tr : list event) :
  ∃ c1,
    _insert_image_in_cell w c src1 mw1 tr = (Ok c1, tr ++ attempt src1)
    ∧ length (attempt src1) ≤ 1
    ∧ c_span c1 = c_span c
    ∧ c_vertical c1 = c_vertical c
    ∧ length (paragraphs c1) = length (paragraphs c)
    ∧ p_alignment (c_first c1) = Some CENTER
    ∧ map p_alignment (c_rest c1) = map p_alignment (c_rest c)
    ∧ Forall (fun p => p_runs p = []) (c_rest c1)
    ∧ ∀ tr', (_insert_image_in_cell w c1 src2 mw2 tr').1
             = (_insert_image_in_cell w c src2 mw2 tr').1.
Proof.
  exists (inserted w c src1 mw1).
  split; [apply insert_produces_cell|].
  split.
  { unfold attempt. destruct src1 as [x|]; [destruct (truthy _)|]; simpl; lia. }
  split; [done|]. split; [done|].
  split. { unfold paragraphs. simpl. by rewrite length_map. }
  split; [done|].
  split. { simpl. rewrite map_map. by apply map_ext. }
  split. { simpl. apply Forall_forall. intros p Hp.
           apply list_elem_of_fmap in Hp as (q & -> & _). done. }
  intros tr'. rewrite !insert_produces_cell. simpl. by rewrite inserted_twice.
Qed.

(** The first photo builder, run step by step: the table it appends and
    the library calls it makes. *)
Lemma foto_section_steps (w : world) (doc : document)
    (images : gmap pystr (option image_arg)) (mw : Z) :
  ∃ tbl,
    produces (add_foto_lapangan_section w doc images mw)
      (concat (map (fun k => attempt (images_get images k)) (take 8 photo_fields)))
      (fun doc' => doc' = Document (d_margins doc) (d_body doc ++ [BTable tbl]))
    ∧ t_autofit tbl = false
    ∧ t_widths tbl = [Some Inches_4_5; Some Inches_4_5]
    ∧ map (map c_span) (t_rows tbl)
      = [[2]; [2]; [1; 1]; [2]; [1; 1]; [2]; [1; 1]; [2]; [1; 1]; [1; 1]]
    ∧ concat (omap (fun i => t_rows tbl !! i) [2; 4; 6; 9])
      = map (fun k => image_cell w (Some TOP) (images_get images k) mw)
            (take 8 photo_fields).
Proof.
  eexists. split; [|split; [|split; [|split]]].
  - eapply produces_events.
    + unfold add_foto_lapangan_section. cbv zeta.
      do 3 (eapply produces_bind;
            [apply photo_item_produces; reflexivity|intros ? ->; cbv beta]).
      eapply produces_bind;
        [unfold image_row;
         apply (insert_pair_produces w (set_vertical TOP new_cell)
                                       (set_vertical TOP new_cell))
        |intros ? ->; cbv beta; apply produces_ret].
    + let v := eval vm_compute in (take 8 photo_fields) in
      change (take 8 photo_fields) with v.
      cbn [concat map app]. rewrite ?app_nil_r, <- ?app_assoc. reflexivity.
  - reflexivity.
  - reflexivity.
  - vm_compute. reflexivity.
  - vm_compute. reflexivity.
Qed.

Lemma append_block_Document (b : block) (m : option margins)
    (body : list block) :
  append_block b (Document m body) = Document m (body ++ [b]).
Proof. reflexivity. Qed.

(** The second photo builder, run step by step: the blocks it appends
    and the library calls it makes. *)
Lemma additional_sections_steps (w : world) (doc : document)
    (images : gmap pystr (option image_arg)) (mw : Z) :
  ∃ blocks,
    produces (add_additional_photo_sections w doc images mw)
      (concat (map (fun k => attempt (images_get images k)) (drop 8 photo_fields)))
      (fun doc' => doc' = Document (d_margins doc) (d_body doc ++ blocks))
    ∧ map is_table blocks
      = [false; true; false; false; true; false; false; true; false;
         false; true; false; false; true; false; false; true; false;
         false; true; false;
         false; true; false; true; false; true; false; true; false]
    ∧ concat (map image_row_of blocks)
      = map (fun k => image_cell w None (images_get images k) mw)
            (drop 8 photo_fields).
Proof.
  eexists. split; [|split].
  - eapply produces_post.
    + eapply produces_events.
      * unfold add_additional_photo_sections. cbv zeta.
        do 3 (eapply produces_bind;
              [apply insert_produces|intros ? ->; cbv beta]).
        do 2 (eapply produces_bind;
              [apply two_image_item_produces|intros ? ->; cbv beta]).
        eapply produces_bind;
          [apply (insert_pair_produces w new_cell new_cell)
          |intros ? ->; cbv beta].
        do 3 (eapply produces_bind;
              [apply two_image_item_produces|intros ? ->; cbv beta]).
        let v := eval vm_compute in (pair_iter tambahan_keys) in
        change (pair_iter tambahan_keys) with v.
        cbn [for_each].
        do 4 (eapply produces_bind;
              [apply tambahan_pair_produces; discriminate
              |intros ? ->; cbv beta]).
        apply produces_ret.
      * let v := eval vm_compute in (drop 8 photo_fields) in
        change (drop 8 photo_fields) with v.
        cbn [concat map app]. rewrite ?app_nil_r, <- ?app_assoc. reflexivity.
    + intros doc' ->. unfold item_title. destruct doc as [m body].
      rewrite !append_block_Document. cbn [d_margins d_body].
      rewrite <- !app_assoc. cbn [app]. reflexivity.
  - vm_compute. reflexivity.
  - vm_compute. reflexivity.
Qed.

(** X7. [add_foto_lapangan_section] always returns, whatever the images
    are and whatever the library does with them. It appends one block
    to the document and changes nothing else: a table of two 4.5-inch
    columns, not auto-fitted, with ten rows, the header and the four
    item titles spanning both columns. The rows under the titles hold
    the images of the first eight photo fields, in order: per field
    the picture, "(no image)" or "(error inserting image)". The library
    is called once for each of these fields that holds data, in that
    order, and for nothing else. *)
Theorem add_foto_lapangan_section_layout (w : world) (doc : document)
    (images : gmap pystr (option image_arg)) (mw : Z) (tr : list event) :
  ∃ tbl,
    add_foto_lapangan_section w doc images mw tr
    = (Ok (Document (d_margins doc) (d_body doc ++ [BTable tbl])),
       tr ++ concat (map (fun k => attempt (images_get images k))
                         (take 8 photo_fields)))
    ∧ t_autofit tbl = false
    ∧ t_widths tbl = [Some Inches_4_5; Some Inches_4_5]
    ∧ map (map c_span) (t_rows tbl)
      = [[2]; [2]; [1; 1]; [2]; [1; 1]; [2]; [1; 1]; [2]; [1; 1]; [1; 1]]
    ∧ concat (omap (fun i => t_rows tbl !! i) [2; 4; 6; 9])
      = map (fun k => image_cell w (Some TOP) (images_get images k) mw)
            (take 8 photo_fields).
Proof.
  destruct (foto_section_steps w doc images mw) as (tbl & H & Hrest).
  exists tbl. split; [|exact Hrest].
  destruct (H tr) as (doc' & E & ->). exact E.
Qed.

(** X8. [add_additional_photo_sections] always returns and only appends:
    thirty blocks, for items 5 to 11 a title, a table and an empty
    paragraph each, for item 12 a title and four times a table and an
    empty paragraph. The last rows of the eleven tables hold, in order,
    the images of the photo fields after the first eight, and the
    library is called once for each of these fields that holds data, in
    that order, and for nothing else. *)
Theorem add_additional_photo_sections_layout (w : world) (doc : document)
    (images : gmap pystr (option image_arg)) (mw : Z) (tr : list event) :
  ∃ blocks,
    add_additional_photo_sections w doc images mw tr
    = (Ok (Document (d_margins doc) (d_body doc ++ blocks)),
       tr ++ concat (map (fun k => attempt (images_get images k))
                         (drop 8 photo_fields)))
    ∧ map is_table blocks
      = [false; true; false; false; true; false; false; true; false;
         false; true; false; false; true; false; false; true; false;
         false; true; false;
         false; true; false; true; false; true; false; true; false]
    ∧ concat (map image_row_of blocks)
      = map (fun k => image_cell w None (images_get images k) mw)
            (drop 8 photo_fields).
Proof.
  destruct (additional_sections_steps w doc images mw) as (blocks & H & Hrest).
  exists blocks. split; [|exact Hrest].
  destruct (H tr) as (doc' & E & ->). exact E.
Qed.

(** *** Builders that are given different images or a different library *)

Lemma agree_refl {A} (m : M A) : agree m m.
Proof. by intros tr. Qed.

Lemma agree_bind {A B} (m m' : M A) (k k' : A -> M B) :
  agree m m' -> (∀ a, agree (k a) (k' a)) -> agree (m ≫= k) (m' ≫= k').
Proof.
  intros Hm Hk tr. unfold mbind, M_bind, bind. rewrite (Hm tr).
  destruct (m' tr) as [[a|e] tr']; [apply Hk|done].
Qed.

Lemma agree_for_each {A S} (l : list A) (body body' : S -> A -> M S) :
  Forall (fun a => ∀ s, agree (body s a) (body' s a)) l ->
  ∀ s, agree (for_each l body s) (for_each l body' s).
Proof.
  induction 1 as [|a l Ha _ IH]; intros s; simpl.
  - apply agree_refl.
  - apply agree_bind; [apply Ha|]. intros s'. apply IH.
Qed.

Section builders_agree.
Variables (w w' : world) (images images' : gmap pystr (option image_arg)).
Variable mw : Z.

(** The two settings make no difference to the inserter on any photo
    field. *)
Hypothesis insert_agrees :
  ∀ (k : pystr) (c : Docx.cell), k ∈ photo_fields ->
    agree (_insert_image_in_cell w c (images_get images k) mw)
          (_insert_image_in_cell w' c (images_get images' k) mw).

Lemma insert_pair_agree (row : list Docx.cell) (k1 k2 : pystr) :
  k1 ∈ photo_fields -> k2 ∈ photo_fields ->
  agree (insert_pair w row (images_get images k1) (images_get images k2) mw)
        (insert_pair w' row (images_get images' k1) (images_get images' k2) mw).
Proof using insert_agrees.
  intros H1 H2. unfold insert_pair.
  apply agree_bind; [by apply insert_agrees|]. intros l.
  apply agree_bind; [by apply insert_agrees|]. intros r. apply agree_refl.
Qed.

Lemma photo_item_agree (title key1 key2 : string) (t : table) :
  lit key1 ∈ photo_fields -> lit key2 ∈ photo_fields ->
  agree (photo_item w images mw title key1 key2 t)
        (photo_item w' images' mw title key1 key2 t).
Proof using insert_agrees.
  intros H1 H2. unfold photo_item, image_row. cbv zeta.
  apply agree_bind; [by apply insert_pair_agree|]. intros row. apply agree_refl.
Qed.

Lemma two_image_item_agree (title key1 key2 : string) (doc : document) :
  lit key1 ∈ photo_fields -> lit key2 ∈ photo_fields ->
  agree (two_image_item w images mw title key1 key2 doc)
        (two_image_item w' images' mw title key1 key2 doc).
Proof using insert_agrees.
  intros H1 H2. unfold two_image_item. cbv zeta.
  apply agree_bind; [by apply insert_pair_agree|]. intros row. apply agree_refl.
Qed.

Lemma tambahan_pair_agree (doc : document) (k1 k2 : pystr) :
  k1 ∈ photo_fields -> k2 ∈ photo_fields ->
  agree (tambahan_pair w images mw doc [k1; k2])
        (tambahan_pair w' images' mw doc [k1; k2]).
Proof using insert_agrees.
  intros H1 H2. unfold tambahan_pair. cbv zeta.
  change (1 <? length [k1; k2])%nat with true. cbv iota.
  change ([k1; k2] !!! 1%nat) with k2. change ([k1; k2] !!! 0%nat) with k1.
  apply agree_bind; [by apply insert_agrees|]. intros l.
  case_bool_decide.
  - apply agree_bind; [|intros r; apply agree_refl].
    intros tr. reflexivity.
  - apply agree_bind; [by apply insert_agrees|intros r; apply agree_refl].
Qed.

Ltac photo_field := apply (bool_decide_unpack _); vm_compute; exact I.

Lemma add_foto_lapangan_section_agree (doc : document) :
  agree (add_foto_lapangan_section w doc images mw)
        (add_foto_lapangan_section w' doc images' mw).
Proof using insert_agrees.
  unfold add_foto_lapangan_section. cbv zeta.
  do 3 (apply agree_bind; [apply photo_item_agree; photo_field|intros ?]).
  apply agree_bind; [|intros ?; apply agree_refl].
  unfold image_row. cbv zeta. apply insert_pair_agree; photo_field.
Qed.

Lemma add_additional_photo_sections_agree (doc : document) :
  agree (add_additional_photo_sections w doc images mw)
        (add_additional_photo_sections w' doc images' mw).
Proof using insert_agrees.
  unfold add_additional_photo_sections. cbv zeta.
  do 3 (apply agree_bind; [apply insert_agrees; photo_field|intros ?]).
  do 2 (apply agree_bind; [apply two_image_item_agree; photo_field|intros ?]).
  apply agree_bind; [apply insert_pair_agree; photo_field|intros ?].
  do 3 (apply agree_bind; [apply two_image_item_agree; photo_field|intros ?]).
  apply agree_for_each.
  let v := eval vm_compute in (pair_iter tambahan_keys) in
  change (pair_iter tambahan_keys) with v.
  repeat constructor; intros ?; apply tambahan_pair_agree; photo_field.
Qed.

End builders_agree.

(** X9. The photo builders look at the images under the 31 photo
    fields and at nothing else in the dict: two dicts that agree on
    these fields give the same document and the same library calls. *)
Theorem photo_builders_read_photo_fields_only (w : world) (doc : document)
    (images images' : gmap pystr (option image_arg)) (mw : Z)
    (tr : list event) :
  (∀ k, k ∈ photo_fields -> images_get images k = images_get images' k) ->
  add_foto_lapangan_section w doc images mw tr
  = add_foto_lapangan_section w doc images' mw tr
  ∧ add_additional_photo_sections w doc images mw tr
    = add_additional_photo_sections w doc images' mw tr.
Proof.
  intros H.
  assert (Hins : ∀ (k : pystr) (c : Docx.cell), k ∈ photo_fields ->
            agree (_insert_image_in_cell w c (images_get images k) mw)
                  (_insert_image_in_cell w c (images_get images' k) mw)).
  { intros k c Hk. rewrite (H k Hk). apply agree_refl. }
  split.
  - by apply add_foto_lapangan_section_agree.
  - by apply add_additional_photo_sections_agree.
Qed.

Lemma photo_builders_read_photo_fields_only_witness :
  let w := World (fun _ => Ok tt) (Ok []) (fun _ => Ok tt) 0 in
  let images : gmap pystr (option image_arg) :=
    {[ lit "foto_tmat_1" := Some (ImgBytes [x89; x50]) ]} in
  let images' := <[lit "foto_lain" := Some (ImgPath (lit "/tmp/lain.png"))]> images in
  add_foto_lapangan_section w (Document None []) images 5 []
  = add_foto_lapangan_section w (Document None []) images' 5 []
  ∧ add_additional_photo_sections w (Document None []) images 5 []
    = add_additional_photo_sections w (Document None []) images' 5 [].
Proof.
  apply photo_builders_read_photo_fields_only.
  apply Forall_forall. repeat (constructor; [vm_compute; reflexivity|]).
  constructor.
Defined.

(** X10. When none of the photo fields holds data (absent, [None],
    empty bytes or an empty path), the photo builders never call the
    library: nothing is logged, and the document is the one built from
    an empty dict, whatever the library would have done. *)
Theorem photo_builders_without_data (w w' : world) (doc : document)
    (images : gmap pystr (option image_arg)) (mw : Z) (tr : list event) :
  (∀ k, k ∈ photo_fields -> truthy (images_get images k) = false) ->
  (∃ doc', add_foto_lapangan_section w doc images mw tr = (Ok doc', tr)
           ∧ add_foto_lapangan_section w' doc ∅ mw tr = (Ok doc', tr))
  ∧ (∃ doc', add_additional_photo_sections w doc images mw tr = (Ok doc', tr)
             ∧ add_additional_photo_sections w' doc ∅ mw tr = (Ok doc', tr)).
Proof.
  intros H.
  assert (Hins : ∀ (k : pystr) (c : Docx.cell), k ∈ photo_fields ->
            agree (_insert_image_in_cell w c (images_get images k) mw)
                  (_insert_image_in_cell w' c (images_get ∅ k) mw)).
  { intros k c Hk tr'. rewrite insert_falsy by (by apply H). reflexivity. }
  split.
  - rewrite (add_foto_lapangan_section_agree w w' images ∅ mw Hins doc tr).
    eexists. split; vm_compute; reflexivity.
  - rewrite (add_additional_photo_sections_agree w w' images ∅ mw Hins doc tr).
    eexists. split; vm_compute; reflexivity.
Qed.

Lemma photo_builders_without_data_witness :
  let w := World (fun _ => Raise OSError) (Ok []) (fun _ => Ok tt) 0 in
  let w' := World (fun _ => Ok tt) (Ok []) (fun _ => Ok tt) 0 in
  let images : gmap pystr (option image_arg) :=
    {[ lit "foto_tmat_1" := Some (ImgBytes []) ]} in
  (∃ doc', add_foto_lapangan_section w (Document None []) images 5 [] = (Ok doc', [])
           ∧ add_foto_lapangan_section w' (Document None []) ∅ 5 [] = (Ok doc', []))
  ∧ (∃ doc', add_additional_photo_sections w (Document None []) images 5 [] = (Ok doc', [])
             ∧ add_additional_photo_sections w' (Document None []) ∅ 5 [] = (Ok doc', [])).
Proof.
  apply photo_builders_without_data.
  apply Forall_forall. apply (bool_decide_unpack _). by vm_compute.
Defined.

(** *** The loop over the additional photos *)

Lemma pair_iter_step {A} (a b : A) (l : list A) :
  pair_iter (a :: b :: l) = [a; b] :: pair_iter l.
Proof. reflexivity. Qed.

(** Induction two elements at a time. *)
Lemma list_pair_ind {A} (P : list A -> Prop) :
  P [] -> (∀ a, P [a]) -> (∀ a b l, P l -> P (a :: b :: l)) -> ∀ l, P l.
Proof.
  intros H0 H1 H2 l.
  assert (P l ∧ ∀ a, P (a :: l)) as [H _]; [|exact H].
  induction l as [|b l [IH1 IH2]]; [by split|].
  split; [apply IH2|]. intros a. by apply H2.
Qed.

(** X11. The slicing [l[i:i+2] for i in range(0, len(l), 2)] loses and
    invents nothing: the pairs put together give back the list in
    order, there are half as many pairs as elements, rounded up, and
    every pair has two elements except the last one of a list of odd
    length, which has one. *)
Theorem pair_iter_partition {A} (l : list A) :
  concat (pair_iter l) = l
  ∧ length (pair_iter l) = Nat.div2 (S (length l))
  ∧ map length (pair_iter l)
    = replicate (Nat.div2 (length l)) 2 ++ (if Nat.odd (length l) then [1] else []).
Proof.
  induction l as [| a | a b l (IH1 & IH2 & IH3)] using list_pair_ind.
  - done.
  - done.
  - rewrite pair_iter_step. split; [|split].
    + simpl. by rewrite IH1.
    + simpl in *. by rewrite IH2.
    + cbn [map length Nat.div2 replicate app]. rewrite IH3.
      change (Nat.odd (S (S (length l)))) with (Nat.odd (length l)). done.
Qed.

(** What the loop body does with a pair of one key. *)
Lemma tambahan_pair_single_steps (w : world)
    (images : gmap pystr (option image_arg)) (mw : Z) (doc : document)
    (k : pystr) :
  produces (tambahan_pair w images mw doc [k])
    (attempt (images_get images k))
    (fun doc' =>
       doc' = Document (d_margins doc)
                (d_body doc
                   ++ [BTable (set_rows
                                 [[image_cell w None (images_get images k) mw;
                                   image_cell w None None mw]]
                                 (two_column_table 1));
                       BParagraph empty_paragraph])).
Proof.
  eapply produces_post.
  - eapply produces_events.
    + unfold tambahan_pair. cbv zeta.
      change (1 <? length [k])%nat with false. cbv iota.
      change ([k] !!! 0%nat) with k.
      eapply produces_bind; [apply insert_produces|intros ? ->; cbv beta].
      eapply produces_bind; [apply insert_produces|intros ? ->; cbv beta].
      apply produces_ret.
    + cbn [attempt]. by rewrite !app_nil_r.
  - intros doc' ->. destruct doc as [m body].
    rewrite !append_block_Document. cbn [d_margins d_body].
    rewrite <- app_assoc. reflexivity.
Qed.

(** X12. A pair that holds one key only, as the last pair of a list of
    odd length would, gets its image on the left and the placeholder
    "(no image)" on the right: the right cell is filled without looking
    at the images and without a library call. The body appends the
    table and an empty paragraph and always returns. *)
Theorem tambahan_pair_single (w : world)
    (images : gmap pystr (option image_arg)) (mw : Z) (doc : document)
    (k : pystr) (tr : list event) :
  ∃ tbl,
    tambahan_pair w images mw doc [k] tr
    = (Ok (Document (d_margins doc)
             (d_body doc ++ [BTable tbl; BParagraph empty_paragraph])),
       tr ++ attempt (images_get images k))
    ∧ t_rows tbl = [[image_cell w None (images_get images k) mw;
                     image_cell w None None mw]]
    ∧ cell_runs (image_cell w None None mw) = [no_image_run]
    ∧ cell_pictures (image_cell w None None mw) = [].
Proof.
  destruct (tambahan_pair_single_steps w images mw doc k tr) as (doc' & E & ->).
  eexists. split; [exact E|]. split; [reflexivity|]. split; reflexivity.
Qed.

(* ===================================================================== *)
(** ** The endpoints beyond validation                                   *)
(* ===================================================================== *)

Lemma run_bind {A B} (m : M A) (k : A -> M B) (tr tr' : list event) (a : A) :
  m tr = (Ok a, tr') -> (m ≫= k) tr = k a tr'.
Proof. intros E. unfold mbind, M_bind, bind. by rewrite E. Qed.

Lemma run_bind_raise {A B} (m : M A) (k : A -> M B) (tr tr' : list event)
    (e : exn) :
  m tr = (Raise e, tr') -> (m ≫= k) tr = (Raise e, tr').
Proof. intros E. unfold mbind, M_bind, bind. by rewrite E. Qed.

Lemma read_photo_produces (form : gmap pystr value)
    (images : gmap pystr (option image_arg)) (fname : pystr) :
  produces (read_photo form images fname) (read_of form fname)
           (fun images' => images' = <[fname := photo_of form fname]> images).
Proof.
  intros tr. unfold read_photo, read_of, photo_of.
  destruct (dict_get form fname) as [|s|u|r];
    try (eexists; split; [unfold mret, M_ret, ret; by rewrite app_nil_r|done]).
  unfold try_except, read, mbind, M_bind, bind, emit, lift.
  destruct (up_read u) as [content|e]; eexists; split; done.
Qed.

Lemma for_each_produces {A S} (l : list A) (body : S -> A -> M S)
    (evs : A -> list event) (step : S -> A -> S) (s : S) :
  (∀ s a, produces (body s a) (evs a) (fun s' => s' = step s a)) ->
  produces (for_each l body s) (concat (map evs l))
           (fun s' => s' = foldl step s l).
Proof.
  intros Hb. revert s. induction l as [|a l IH]; intros s; simpl.
  - apply produces_ret.
  - eapply produces_bind; [apply Hb|]. intros s' ->. apply IH.
Qed.

Lemma collected_lookup (form : gmap pystr value) (fields : list pystr)
    (images : gmap pystr (option image_arg)) (k : pystr) :
  foldl (fun imgs fname => <[fname := photo_of form fname]> imgs) images fields !! k
  = if bool_decide (k ∈ fields) then Some (photo_of form k) else images !! k.
Proof.
  revert images. induction fields as [|f fields IH]; intros images; simpl.
  - done.
  - rewrite IH. destruct (decide (k ∈ fields)) as [Hin|Hin].
    + rewrite !bool_decide_eq_true_2; [done|by right|done].
    + rewrite (bool_decide_eq_false_2 _ Hin).
      destruct (decide (k = f)) as [->|Hne].
      * rewrite lookup_insert_eq. by rewrite bool_decide_eq_true_2 by (by left).
      * rewrite lookup_insert_ne by done.
        rewrite bool_decide_eq_false_2; [done|].
        intros [?|?]%elem_of_cons; done.
Qed.

(** The loop over the photo fields, for any list of fields: what it
    logs and what it returns. *)
Lemma read_photos_run (form : gmap pystr value) (fields : list pystr) :
  produces (for_each fields (read_photo form) ∅)
    (concat (map (read_of form) fields))
    (fun images =>
       (∀ k, k ∈ fields -> images !! k = Some (photo_of form k))
       ∧ (∀ k, k ∉ fields -> images !! k = None)
       ∧ (∀ k, k ∈ fields -> images_get images k = photo_of form k)).
Proof.
  eapply produces_post.
  - apply (for_each_produces fields (read_photo form) (read_of form)
             (fun imgs fname => <[fname := photo_of form fname]> imgs)).
    intros s a. apply read_photo_produces.
  - intros images ->.
    assert (H1 : ∀ k, k ∈ fields ->
              foldl (fun imgs fname => <[fname := photo_of form fname]> imgs)
                    (∅ : gmap pystr (option image_arg)) fields !! k
              = Some (photo_of form k)).
    { intros k Hk. rewrite collected_lookup. by rewrite bool_decide_eq_true_2. }
    split; [exact H1|]. split.
    + intros k Hk. rewrite collected_lookup.
      by rewrite bool_decide_eq_false_2.
    + intros k Hk. unfold images_get. by rewrite (H1 k Hk).
Qed.

(** X13. Reading the uploads never raises and reads each upload bound
    to one of the given fields once, in the order of the fields. The
    dict it returns has exactly the given fields as keys: a field maps
    to the bytes of its upload when there is one and reading it
    succeeds, and to [None] otherwise (no upload, a value that is not
    an upload, or a read that raises). *)
Theorem read_photos_collects (form : gmap pystr value) (fields : list pystr)
    (tr : list event) :
  ∃ images,
    for_each fields (read_photo form) ∅ tr
    = (Ok images, tr ++ concat (map (read_of form) fields))
    ∧ (∀ k, k ∈ fields -> images !! k = Some (photo_of form k))
    ∧ (∀ k, k ∉ fields -> images !! k = None)
    ∧ (∀ k u e, dict_get form k = VUpload u -> up_read u = Raise e ->
                images_get images k = None).
Proof.
  destruct (read_photos_run form fields tr) as (images & E & H1 & H2 & H3).
  exists images. split; [exact E|]. split; [exact H1|]. split; [exact H2|].
  intros k u e Hk Hu. destruct (decide (k ∈ fields)) as [Hin|Hin].
  - rewrite (H3 k Hin). unfold photo_of. by rewrite Hk, Hu.
  - unfold images_get. by rewrite (H2 k Hin).
Qed.

(** The handler's [form] binds every photo field, and the site sketch,
    to the upload the client sent under that name, or to [None]. *)
Lemma handler_locals_file_fields (sub : submission) :
  Forall (fun k : pystr =>
            handler_locals sub !! k
            = Some (match sub_files sub !! k with
                    | Some u => VUpload u
                    | None => VNone
                    end))
         (lit "sketsa_lokasi_image" :: photo_fields).
Proof. repeat constructor. Qed.

Lemma handler_locals_photo (sub : submission) (k : pystr) :
  k ∈ photo_fields ->
  photo_of (handler_locals sub) k = uploaded sub k
  ∧ read_of (handler_locals sub) k = read_attempt sub k.
Proof.
  intros Hk. pose proof (handler_locals_file_fields sub) as HF.
  rewrite Forall_forall in HF.
  assert (HF' := HF k (proj2 (elem_of_cons _ _ _) (or_intror Hk))).
  clear HF. rename HF' into HF.
  unfold photo_of, read_of, uploaded, read_attempt, dict_get. rewrite HF.
  simpl. by destruct (sub_files sub !! k).
Qed.

Lemma map_ext_elem_of {A B} (f g : A -> B) (l : list A) :
  (∀ x, x ∈ l -> f x = g x) -> map f l = map g l.
Proof.
  induction l as [|a l IH]; intros H; simpl; [done|].
  rewrite (H a) by left. f_equal. apply IH. intros x Hx. apply H. by right.
Qed.

(** Reading the site sketch never raises. *)
Lemma sketsa_read_run (sub : submission) (tr : list event) :
  ∃ image_bytes,
    match file_local sub "sketsa_lokasi_image" with
    | VNone => mret None
    | VUpload u =>
        try_except (content ← read u; mret (Some content))
                   (fun _ => mret None)
    | _ => mret None
    end tr
    = (Ok image_bytes, tr ++ read_attempt sub (lit "sketsa_lokasi_image")).
Proof.
  unfold file_local, read_attempt.
  destruct (sub_files sub !! lit "sketsa_lokasi_image") as [u|].
  - unfold try_except, read, mbind, M_bind, bind, emit, lift, mret, M_ret, ret.
    destruct (up_read u) as [content|e]; eexists; reflexivity.
  - exists None. unfold mret, M_ret, ret. by rewrite app_nil_r.
Qed.

Lemma call_global_defined (env : gmap string builder) (doc : document)
    (name : string) (kw : list (string * kwarg)) (tr : list event)
    (f : builder) :
  env !! name = Some f -> (∀ doc kw, ∃ doc', f doc kw = Ok doc') ->
  ∃ doc', call_global env doc (name, kw) tr = (Ok doc', tr).
Proof.
  intros Hf Hok. destruct (Hok doc kw) as [doc' E]. exists doc'.
  unfold call_global, lift, builder in *.
  change ((name, kw).1) with name. change ((name, kw).2) with kw.
  by rewrite Hf, E.
Qed.

(** Both photo builders in a row: what they ask of the library. *)
Lemma photo_sections_run (w : world) (doc : document)
    (images : gmap pystr (option image_arg)) (mw : Z) :
  produces (doc1 ← add_foto_lapangan_section w doc images mw;
            add_additional_photo_sections w doc1 images mw)
    (concat (map (fun k => attempt (images_get images k)) photo_fields))
    (fun _ => True).
Proof.
  destruct (foto_section_steps w doc images mw) as (tbl & H1 & _).
  eapply produces_events.
  - eapply produces_bind; [exact H1|]. intros doc1 _.
    destruct (additional_sections_steps w doc1 images mw) as (blocks & H2 & _).
    eapply produces_post; [exact H2|done].
  - rewrite <- concat_app, <- map_app. by rewrite take_drop.
Qed.

(** With the builders bound, the full-section endpoint gets as far as
    the saving of the document once validation has passed. *)
Lemma full_section_reaches_save (env : gmap string builder) (w : world)
    (sub : submission) (tr : list event) :
  validate_numeric_fields (handler_locals sub) numeric_rules = Ok [] ->
  builders_defined env (full_section_calls sub) ->
  sketsa_builder_defined env ->
  ∃ doc,
    generate_full_section env w sub tr
    = save_and_respond w doc (lit "tallysheet_")
        (tr ++ [EvDocument]
            ++ concat (map (read_attempt sub)
                           (lit "sketsa_lokasi_image" :: photo_fields))
            ++ concat (map (fun k => attempt (uploaded sub k)) photo_fields)).
Proof.
  intros Hv Hb (f & Hf & Hok).
  cbv beta zeta delta [generate_full_section].
  rewrite (run_bind _ _ tr tr [])
    by (unfold lift; by rewrite Hv).
  cbv beta iota.
  rewrite (run_bind new_document _ tr (tr ++ [EvDocument]) _ eq_refl).
  cbv beta.
  destruct (for_each_calls_defined env (full_section_calls sub)
              (Document (Some (Margins Inches_1 Inches_1 Inches_1_25 Inches_1_25)) [])
              (tr ++ [EvDocument]) Hb) as [doc1 E1].
  rewrite (run_bind _ _ _ _ _ E1). cbv beta.
  destruct (sketsa_read_run sub (tr ++ [EvDocument])) as [image_bytes E2].
  rewrite (run_bind _ _ _ _ _ E2). cbv beta.
  destruct (call_global_defined env doc1 "add_sketsa_lokasi_row"
              [kwb "sketsa_image_bytes" image_bytes]
              ((tr ++ [EvDocument])
                 ++ read_attempt sub (lit "sketsa_lokasi_image")) f Hf Hok)
    as [doc2 E3].
  rewrite (run_bind _ _ _ _ _ E3). cbv beta.
  destruct (read_photos_run (handler_locals sub) photo_fields
              ((tr ++ [EvDocument])
                 ++ read_attempt sub (lit "sketsa_lokasi_image")))
    as (images & E4 & _ & _ & Himg).
  rewrite (run_bind _ _ _ _ _ E4). cbv beta.
  destruct (photo_sections_run w doc2 images default_max_image_width
              (((tr ++ [EvDocument])
                  ++ read_attempt sub (lit "sketsa_lokasi_image"))
                 ++ concat (map (read_of (handler_locals sub)) photo_fields)))
    as (doc4 & E5 & _).
  unfold mbind at 1, M_bind at 1, bind at 1 in E5.
  destruct (add_foto_lapangan_section w doc2 images default_max_image_width _)
    as [[doc3|e] tr3] eqn:E6; [|discriminate E5].
  rewrite (run_bind _ _ _ _ _ E6). cbv beta.
  exists doc4.
  assert (add_additional_photo_sections w doc3 images default_max_image_width tr3
          = (Ok doc4,
             tr ++ [EvDocument]
                ++ concat (map (read_attempt sub)
                               (lit "sketsa_lokasi_image" :: photo_fields))
                ++ concat (map (fun k => attempt (uploaded sub k)) photo_fields)))
    as E7.
  { rewrite E5. f_equal. rewrite <- !app_assoc. f_equal. f_equal.
    cbn [map concat]. rewrite <- !app_assoc. f_equal.
    f_equal.
    - f_equal. apply map_ext_elem_of. intros k Hk.
      apply (handler_locals_photo sub k Hk).
    - f_equal. apply map_ext_elem_of. intros k Hk.
      rewrite (Himg k Hk). by rewrite (proj1 (handler_locals_photo sub k Hk)). }
  by rewrite (run_bind _ _ _ _ _ E7).
Qed.

Lemma sample_reaches_save (env : gmap string builder) (w : world)
    (tr : list event) :
  builders_defined env sample_calls ->
  ∃ doc,
    generate_sample env w tr
    = save_and_respond w doc (lit "tallysheet_sample_") (tr ++ [EvDocument]).
Proof.
  intros Hb.
  destruct (for_each_calls_defined env sample_calls
              (Document (Some (Margins Inches_1 Inches_1 Inches_1_25 Inches_1_25)) [])
              (tr ++ [EvDocument]) Hb) as [doc1 E1].
  destruct (photo_sections_without_images w doc1 (tr ++ [EvDocument]))
    as [doc2 E2].
  exists doc2. unfold generate_sample.
  rewrite (run_bind new_document _ tr (tr ++ [EvDocument]) _ eq_refl).
  cbv beta. rewrite (run_bind _ _ _ _ _ E1). cbv beta.
  unfold mbind at 1, M_bind at 1, bind at 1 in E2.
  destruct (add_foto_lapangan_section w doc1 ∅ default_max_image_width
              (tr ++ [EvDocument])) as [[d|e] tr1] eqn:E3; [|discriminate E2].
  rewrite (run_bind _ _ _ _ _ E3). cbv beta.
  by rewrite (run_bind _ _ _ _ _ E2).
Qed.

Lemma save_and_respond_save_fails (w : world) (doc : document)
    (prefix base : pystr) (e : exn) (tr : list event) :
  w_tempfile w = Ok base -> w_save w (base ++ lit ".docx") = Raise e ->
  save_and_respond w doc prefix tr
  = (Raise e, tr ++ [EvTempFile (base ++ lit ".docx");
                     EvSave (base ++ lit ".docx") doc]).
Proof.
  intros Ht Hs. unfold save_and_respond, NamedTemporaryFile, save.
  unfold mbind, M_bind, bind, lift, emit, mret, M_ret, ret.
  rewrite Ht, Hs. by rewrite <- !app_assoc.
Qed.

Lemma stub_builders_sample : builders_defined stub_builders sample_calls.
Proof.
  repeat (constructor;
          [eexists; split; [vm_compute; reflexivity|intros; eexists; reflexivity]|]).
  constructor.
Qed.

Lemma stub_builders_full (sub : submission) :
  builders_defined stub_builders (full_section_calls sub).
Proof.
  repeat (constructor;
          [eexists; split; [vm_compute; reflexivity|intros; eexists; reflexivity]|]).
  constructor.
Qed.

Lemma stub_builders_sketsa : sketsa_builder_defined stub_builders.
Proof.
  eexists; split; [vm_compute; reflexivity|intros; eexists; reflexivity].
Qed.

(** X14. With the builders bound and the file system co-operating, a
    submission that passes validation is answered 200 with the saved
    file, of the Word media type and named [tallysheet_] followed by
    32 lower-case hex digits and [.docx]. On the way the handler
    constructs the document, reads the site sketch and then every
    photo field that came with an upload, once and in the order of the
    photo fields, calls the image library for exactly the photo fields
    whose upload could be read and is not empty, in the same order,
    creates the temporary file, saves the document to it and schedules
    its removal; a read that raises does not stop it. *)
Theorem full_section_endpoint_with_builders (env : gmap string builder)
    (w : world) (sub : submission) (base : pystr) (tr : list event) :
  validate_numeric_fields (handler_locals sub) numeric_rules = Ok [] ->
  builders_defined env (full_section_calls sub) ->
  sketsa_builder_defined env ->
  w_tempfile w = Ok base -> w_save w (base ++ lit ".docx") = Ok tt ->
  ∃ doc name,
    generate_full_section env w sub tr
    = (Ok (FileResponse (base ++ lit ".docx") docx_media_type
             (lit "tallysheet_" ++ name ++ lit ".docx")),
       tr ++ [EvDocument]
          ++ concat (map (read_attempt sub)
                         (lit "sketsa_lokasi_image" :: photo_fields))
          ++ concat (map (fun k => attempt (uploaded sub k)) photo_fields)
          ++ [EvTempFile (base ++ lit ".docx");
              EvSave (base ++ lit ".docx") doc;
              EvAddTask (base ++ lit ".docx")])
    ∧ name = uuid_hex (w_uuid4 w)
    ∧ length name = 32
    ∧ forallb is_hex_digit name = true
    ∧ http_status (generate_full_section env w sub tr).1 = 200%Z.
Proof.
  intros Hv Hb Hsk Ht Hs.
  destruct (full_section_reaches_save env w sub tr Hv Hb Hsk) as [doc E].
  exists doc, (uuid_hex (w_uuid4 w)).
  rewrite E, (save_and_respond_ok w doc _ base _ Ht Hs).
  destruct (uuid_hex_shape (w_uuid4 w)) as [Hl Hh].
  split; [by rewrite <- !app_assoc|]. done.
Qed.

Lemma full_section_endpoint_with_builders_witness :
  let w := World (fun _ => Raise OSError) (Ok (lit "/tmp/tmpq1w2e3"))
                 (fun _ => Ok tt) 0x1f2e3d4c5b6a79881726354453627180 in
  let photo := Upload (lit "a.jpg") (Ok [x89; x50]) in
  let broken := Upload (lit "b.jpg") (Raise OSError) in
  let sub := Submission ∅ (<[lit "foto_tutupan_lahan_1" := photo]>
                             (<[lit "foto_tmat_2" := broken]> ∅)) in
  ∃ doc name,
    generate_full_section stub_builders w sub []
    = (Ok (FileResponse (lit "/tmp/tmpq1w2e3" ++ lit ".docx") docx_media_type
             (lit "tallysheet_" ++ name ++ lit ".docx")),
       [] ++ [EvDocument]
          ++ concat (map (read_attempt sub)
                         (lit "sketsa_lokasi_image" :: photo_fields))
          ++ concat (map (fun k => attempt (uploaded sub k)) photo_fields)
          ++ [EvTempFile (lit "/tmp/tmpq1w2e3" ++ lit ".docx");
              EvSave (lit "/tmp/tmpq1w2e3" ++ lit ".docx") doc;
              EvAddTask (lit "/tmp/tmpq1w2e3" ++ lit ".docx")])
    ∧ name = uuid_hex (w_uuid4 w)
    ∧ length name = 32
    ∧ forallb is_hex_digit name = true
    ∧ http_status (generate_full_section stub_builders w sub []).1 = 200%Z.
Proof.
  intros w photo broken sub.
  apply (full_section_endpoint_with_builders stub_builders w sub
           (lit "/tmp/tmpq1w2e3") []).
  - vm_compute. reflexivity.
  - apply stub_builders_full.
  - apply stub_builders_sketsa.
  - reflexivity.
  - reflexivity.
Defined.

(** X15. With the builders bound and the file system co-operating, the
    sample endpoint answers 200 with the saved file, of the Word media
    type and named [tallysheet_sample_] followed by 32 lower-case hex
    digits and [.docx]. It constructs one document, never calls the
    image library and reads nothing, creates one temporary file, saves
    the document to it and schedules its removal. *)
Theorem sample_endpoint_with_builders (env : gmap string builder)
    (w : world) (base : pystr) (tr : list event) :
  builders_defined env sample_calls ->
  w_tempfile w = Ok base -> w_save w (base ++ lit ".docx") = Ok tt ->
  ∃ doc name,
    generate_sample env w tr
    = (Ok (FileResponse (base ++ lit ".docx") docx_media_type
             (lit "tallysheet_sample_" ++ name ++ lit ".docx")),
       tr ++ [EvDocument; EvTempFile (base ++ lit ".docx");
              EvSave (base ++ lit ".docx") doc;
              EvAddTask (base ++ lit ".docx")])
    ∧ name = uuid_hex (w_uuid4 w)
    ∧ length name = 32
    ∧ forallb is_hex_digit name = true
    ∧ http_status (generate_sample env w tr).1 = 200%Z.
Proof.
  intros Hb Ht Hs.
  destruct (sample_reaches_save env w tr Hb) as [doc E].
  exists doc, (uuid_hex (w_uuid4 w)).
  rewrite E, (save_and_respond_ok w doc _ base _ Ht Hs).
  destruct (uuid_hex_shape (w_uuid4 w)) as [Hl Hh].
  split; [by rewrite <- !app_assoc|]. done.
Qed.

Lemma sample_endpoint_with_builders_witness :
  let w := World (fun _ => Raise OSError) (Ok (lit "/tmp/tmpq1w2e3"))
                 (fun _ => Ok tt) 0x1f2e3d4c5b6a79881726354453627180 in
  ∃ doc name,
    generate_sample stub_builders w []
    = (Ok (FileResponse (lit "/tmp/tmpq1w2e3" ++ lit ".docx") docx_media_type
             (lit "tallysheet_sample_" ++ name ++ lit ".docx")),
       [] ++ [EvDocument; EvTempFile (lit "/tmp/tmpq1w2e3" ++ lit ".docx");
              EvSave (lit "/tmp/tmpq1w2e3" ++ lit ".docx") doc;
              EvAddTask (lit "/tmp/tmpq1w2e3" ++ lit ".docx")])
    ∧ name = uuid_hex (w_uuid4 w)
    ∧ length name = 32
    ∧ forallb is_hex_digit name = true
    ∧ http_status (generate_sample stub_builders w []).1 = 200%Z.
Proof.
  intros w.
  apply (sample_endpoint_with_builders stub_builders w (lit "/tmp/tmpq1w2e3") []).
  - apply stub_builders_sample.
  - reflexivity.
  - reflexivity.
Defined.

(** X16. When the temporary file is created and saving the document to
    it raises, the exception leaves either endpoint, so the client gets
    a server error, and the trace ends with the save: the removal of
    the temporary file is not scheduled, so the file, created with
    [delete=False], stays behind. *)
Theorem save_failure_leaves_temp_file (env : gmap string builder) (w : world)
    (sub : submission) (base : pystr) (e : exn) (tr : list event) :
  validate_numeric_fields (handler_locals sub) numeric_rules = Ok [] ->
  builders_defined env (full_section_calls sub) ->
  sketsa_builder_defined env ->
  builders_defined env sample_calls ->
  w_tempfile w = Ok base -> w_save w (base ++ lit ".docx") = Raise e ->
  ∃ doc_full doc_sample,
    generate_full_section env w sub tr
    = (Raise e,
       tr ++ [EvDocument]
          ++ concat (map (read_attempt sub)
                         (lit "sketsa_lokasi_image" :: photo_fields))
          ++ concat (map (fun k => attempt (uploaded sub k)) photo_fields)
          ++ [EvTempFile (base ++ lit ".docx");
              EvSave (base ++ lit ".docx") doc_full])
    ∧ generate_sample env w tr
      = (Raise e, tr ++ [EvDocument; EvTempFile (base ++ lit ".docx");
                         EvSave (base ++ lit ".docx") doc_sample])
    ∧ http_status (generate_full_section env w sub tr).1 = 500%Z
    ∧ http_status (generate_sample env w tr).1 = 500%Z.
Proof.
  intros Hv Hb Hsk Hbs Ht Hs.
  destruct (full_section_reaches_save env w sub tr Hv Hb Hsk) as [doc1 E1].
  destruct (sample_reaches_save env w tr Hbs) as [doc2 E2].
  exists doc1, doc2.
  rewrite E1, E2, !(save_and_respond_save_fails w _ _ base e _ Ht Hs).
  split; [by rewrite <- !app_assoc|].
  split; [by rewrite <- !app_assoc|]. done.
Qed.

Lemma save_failure_leaves_temp_file_witness :
  let w := World (fun _ => Ok tt) (Ok (lit "/tmp/tmpq1w2e3"))
                 (fun _ => Raise OSError) 7 in
  let sub := Submission (<[lit "genangan" := lit "12.5"]> ∅)
               (<[lit "foto_tmat_1" := Upload (lit "a.jpg") (Ok [x89; x50])]> ∅) in
  ∃ doc_full doc_sample,
    generate_full_section stub_builders w sub []
    = (Raise OSError,
       [] ++ [EvDocument]
          ++ concat (map (read_attempt sub)
                         (lit "sketsa_lokasi_image" :: photo_fields))
          ++ concat (map (fun k => attempt (uploaded sub k)) photo_fields)
          ++ [EvTempFile (lit "/tmp/tmpq1w2e3" ++ lit ".docx");
              EvSave (lit "/tmp/tmpq1w2e3" ++ lit ".docx") doc_full])
    ∧ generate_sample stub_builders w []
      = (Raise OSError,
         [] ++ [EvDocument; EvTempFile (lit "/tmp/tmpq1w2e3" ++ lit ".docx");
                EvSave (lit "/tmp/tmpq1w2e3" ++ lit ".docx") doc_sample])
    ∧ http_status (generate_full_section stub_builders w sub []).1 = 500%Z
    ∧ http_status (generate_sample stub_builders w []).1 = 500%Z.
Proof.
  intros w sub.
  apply (save_failure_leaves_temp_file stub_builders w sub
           (lit "/tmp/tmpq1w2e3") OSError []).
  - vm_compute. reflexivity.
  - apply stub_builders_full.
  - apply stub_builders_sketsa.
  - apply stub_builders_sample.
  - reflexivity.
  - reflexivity.
Defined.

